(** * RealEstateBondFHE: the batch / decryption-callback coordinator

    A shallow embedding of the Solidity contract [RealEstateBondFHE]
    (contracts/realEstateBondFHE.sol) and the properties of its access
    control, batch life cycle, submission ledger and decryption
    request / callback protocol.

    Storage is a record of the contract's state variables, mappings are
    finite maps read with the Solidity default, and every function body is
    a program in a small state-and-revert monad that performs the storage
    writes, the events and the calls to the FHE library in source order.
    A call that reverts is rolled back by the EVM; the monad nevertheless
    keeps the storage reached at the point of the revert, so that the
    position of the checks relative to the writes can be stated. *)

From Stdlib Require Import ZArith.
From Stdlib.Strings Require Import Byte.
From stdpp Require Import gmap list.

Local Open Scope Z_scope.

(** ** Value types *)

(** [address] is a 160-bit word, [uint256] a 256-bit word, [bytes32] a
    256-bit word and [euint32] a user-defined value type over [bytes32]
    (a ciphertext handle); all are carried as [Z]. *)
Abbreviation address := Z (only parsing).
Abbreviation uint256 := Z (only parsing).
Abbreviation bytes32 := Z (only parsing).
Abbreviation euint32 := Z (only parsing).
Abbreviation bytes := (list byte) (only parsing).

Definition MAX_UINT256 : Z := 2 ^ 256 - 1.
Definition MAX_UINT32 : Z := 2 ^ 32 - 1.

(** struct DecryptionContext *)
Record DecryptionContext := mkDecryptionContext {
  batchId : uint256;
  stateHash : bytes32;
  processed : bool
}.

(** struct Batch; the field [exists] is spelled [exists_]. *)
Record Batch := mkBatch {
  exists_ : bool;
  closed : bool
}.

(** The value a mapping returns at a key that was never written. *)
Definition DecryptionContext_default : DecryptionContext :=
  {| batchId := 0; stateHash := 0; processed := false |}.

Definition Batch_default : Batch :=
  {| exists_ := false; closed := false |}.

(** ** Storage *)

Record State := mkState {
  owner : address;
  isProvider : gmap Z bool;
  lastSubmissionTime : gmap Z Z;
  lastDecryptionRequestTime : gmap Z Z;
  cooldownSeconds : uint256;
  paused : bool;
  decryptionContexts : gmap Z DecryptionContext;
  batches : gmap Z Batch;
  totalEncryptedValue : euint32;
  totalEncryptedShares : euint32;
  batchEncryptedValue : gmap Z Z;
  batchEncryptedShares : gmap Z Z;
  providerEncryptedValue : gmap (Z * Z) Z;
  providerEncryptedShares : gmap (Z * Z) Z
}.

(** Storage before the constructor runs: every slot is zero. *)
Definition zero_storage : State :=
  {| owner := 0; isProvider := ∅; lastSubmissionTime := ∅;
     lastDecryptionRequestTime := ∅; cooldownSeconds := 0; paused := false;
     decryptionContexts := ∅; batches := ∅;
     totalEncryptedValue := 0; totalEncryptedShares := 0;
     batchEncryptedValue := ∅; batchEncryptedShares := ∅;
     providerEncryptedValue := ∅; providerEncryptedShares := ∅ |}.

(** Reading a mapping: the stored value, or the default of the value type. *)
Definition mload {K V : Type} `{Countable K} (d : V) (m : gmap K V) (k : K) : V :=
  default d (m !! k).

Definition isProvider_at (s : State) (a : address) : bool :=
  mload false (isProvider s) a.
Definition lastSubmissionTime_at (s : State) (a : address) : uint256 :=
  mload 0 (lastSubmissionTime s) a.
Definition lastDecryptionRequestTime_at (s : State) (a : address) : uint256 :=
  mload 0 (lastDecryptionRequestTime s) a.
Definition decryptionContexts_at (s : State) (requestId : uint256) : DecryptionContext :=
  mload DecryptionContext_default (decryptionContexts s) requestId.
Definition batches_at (s : State) (id : uint256) : Batch :=
  mload Batch_default (batches s) id.
Definition batchEncryptedValue_at (s : State) (id : uint256) : euint32 :=
  mload 0 (batchEncryptedValue s) id.
Definition batchEncryptedShares_at (s : State) (id : uint256) : euint32 :=
  mload 0 (batchEncryptedShares s) id.
Definition providerEncryptedValue_at (s : State) (id : uint256) (a : address) : euint32 :=
  mload 0 (providerEncryptedValue s) (id, a).
Definition providerEncryptedShares_at (s : State) (id : uint256) (a : address) : euint32 :=
  mload 0 (providerEncryptedShares s) (id, a).

(** Writing one state variable. *)
Definition set_owner (v : address) (s : State) : State :=
  {| owner := v; isProvider := isProvider s;
     lastSubmissionTime := lastSubmissionTime s;
     lastDecryptionRequestTime := lastDecryptionRequestTime s;
     cooldownSeconds := cooldownSeconds s; paused := paused s;
     decryptionContexts := decryptionContexts s; batches := batches s;
     totalEncryptedValue := totalEncryptedValue s;
     totalEncryptedShares := totalEncryptedShares s;
     batchEncryptedValue := batchEncryptedValue s;
     batchEncryptedShares := batchEncryptedShares s;
     providerEncryptedValue := providerEncryptedValue s;
     providerEncryptedShares := providerEncryptedShares s |}.

Definition set_isProvider (v : gmap Z bool) (s : State) : State :=
  {| owner := owner s; isProvider := v;
     lastSubmissionTime := lastSubmissionTime s;
     lastDecryptionRequestTime := lastDecryptionRequestTime s;
     cooldownSeconds := cooldownSeconds s; paused := paused s;
     decryptionContexts := decryptionContexts s; batches := batches s;
     totalEncryptedValue := totalEncryptedValue s;
     totalEncryptedShares := totalEncryptedShares s;
     batchEncryptedValue := batchEncryptedValue s;
     batchEncryptedShares := batchEncryptedShares s;
     providerEncryptedValue := providerEncryptedValue s;
     providerEncryptedShares := providerEncryptedShares s |}.

Definition set_lastSubmissionTime (v : gmap Z Z) (s : State) : State :=
  {| owner := owner s; isProvider := isProvider s;
     lastSubmissionTime := v;
     lastDecryptionRequestTime := lastDecryptionRequestTime s;
     cooldownSeconds := cooldownSeconds s; paused := paused s;
     decryptionContexts := decryptionContexts s; batches := batches s;
     totalEncryptedValue := totalEncryptedValue s;
     totalEncryptedShares := totalEncryptedShares s;
     batchEncryptedValue := batchEncryptedValue s;
     batchEncryptedShares := batchEncryptedShares s;
     providerEncryptedValue := providerEncryptedValue s;
     providerEncryptedShares := providerEncryptedShares s |}.

Definition set_lastDecryptionRequestTime (v : gmap Z Z) (s : State) : State :=
  {| owner := owner s; isProvider := isProvider s;
     lastSubmissionTime := lastSubmissionTime s;
     lastDecryptionRequestTime := v;
     cooldownSeconds := cooldownSeconds s; paused := paused s;
     decryptionContexts := decryptionContexts s; batches := batches s;
     totalEncryptedValue := totalEncryptedValue s;
     totalEncryptedShares := totalEncryptedShares s;
     batchEncryptedValue := batchEncryptedValue s;
     batchEncryptedShares := batchEncryptedShares s;
     providerEncryptedValue := providerEncryptedValue s;
     providerEncryptedShares := providerEncryptedShares s |}.

Definition set_cooldownSeconds (v : uint256) (s : State) : State :=
  {| owner := owner s; isProvider := isProvider s;
     lastSubmissionTime := lastSubmissionTime s;
     lastDecryptionRequestTime := lastDecryptionRequestTime s;
     cooldownSeconds := v; paused := paused s;
     decryptionContexts := decryptionContexts s; batches := batches s;
     totalEncryptedValue := totalEncryptedValue s;
     totalEncryptedShares := totalEncryptedShares s;
     batchEncryptedValue := batchEncryptedValue s;
     batchEncryptedShares := batchEncryptedShares s;
     providerEncryptedValue := providerEncryptedValue s;
     providerEncryptedShares := providerEncryptedShares s |}.

Definition set_paused (v : bool) (s : State) : State :=
  {| owner := owner s; isProvider := isProvider s;
     lastSubmissionTime := lastSubmissionTime s;
     lastDecryptionRequestTime := lastDecryptionRequestTime s;
     cooldownSeconds := cooldownSeconds s; paused := v;
     decryptionContexts := decryptionContexts s; batches := batches s;
     totalEncryptedValue := totalEncryptedValue s;
     totalEncryptedShares := totalEncryptedShares s;
     batchEncryptedValue := batchEncryptedValue s;
     batchEncryptedShares := batchEncryptedShares s;
     providerEncryptedValue := providerEncryptedValue s;
     providerEncryptedShares := providerEncryptedShares s |}.

Definition set_decryptionContexts (v : gmap Z DecryptionContext) (s : State) : State :=
  {| owner := owner s; isProvider := isProvider s;
     lastSubmissionTime := lastSubmissionTime s;
     lastDecryptionRequestTime := lastDecryptionRequestTime s;
     cooldownSeconds := cooldownSeconds s; paused := paused s;
     decryptionContexts := v; batches := batches s;
     totalEncryptedValue := totalEncryptedValue s;
     totalEncryptedShares := totalEncryptedShares s;
     batchEncryptedValue := batchEncryptedValue s;
     batchEncryptedShares := batchEncryptedShares s;
     providerEncryptedValue := providerEncryptedValue s;
     providerEncryptedShares := providerEncryptedShares s |}.

Definition set_batches (v : gmap Z Batch) (s : State) : State :=
  {| owner := owner s; isProvider := isProvider s;
     lastSubmissionTime := lastSubmissionTime s;
     lastDecryptionRequestTime := lastDecryptionRequestTime s;
     cooldownSeconds := cooldownSeconds s; paused := paused s;
     decryptionContexts := decryptionContexts s; batches := v;
     totalEncryptedValue := totalEncryptedValue s;
     totalEncryptedShares := totalEncryptedShares s;
     batchEncryptedValue := batchEncryptedValue s;
     batchEncryptedShares := batchEncryptedShares s;
     providerEncryptedValue := providerEncryptedValue s;
     providerEncryptedShares := providerEncryptedShares s |}.

Definition set_totalEncryptedValue (v : euint32) (s : State) : State :=
  {| owner := owner s; isProvider := isProvider s;
     lastSubmissionTime := lastSubmissionTime s;
     lastDecryptionRequestTime := lastDecryptionRequestTime s;
     cooldownSeconds := cooldownSeconds s; paused := paused s;
     decryptionContexts := decryptionContexts s; batches := batches s;
     totalEncryptedValue := v;
     totalEncryptedShares := totalEncryptedShares s;
     batchEncryptedValue := batchEncryptedValue s;
     batchEncryptedShares := batchEncryptedShares s;
     providerEncryptedValue := providerEncryptedValue s;
     providerEncryptedShares := providerEncryptedShares s |}.

Definition set_totalEncryptedShares (v : euint32) (s : State) : State :=
  {| owner := owner s; isProvider := isProvider s;
     lastSubmissionTime := lastSubmissionTime s;
     lastDecryptionRequestTime := lastDecryptionRequestTime s;
     cooldownSeconds := cooldownSeconds s; paused := paused s;
     decryptionContexts := decryptionContexts s; batches := batches s;
     totalEncryptedValue := totalEncryptedValue s;
     totalEncryptedShares := v;
     batchEncryptedValue := batchEncryptedValue s;
     batchEncryptedShares := batchEncryptedShares s;
     providerEncryptedValue := providerEncryptedValue s;
     providerEncryptedShares := providerEncryptedShares s |}.

Definition set_batchEncryptedValue (v : gmap Z Z) (s : State) : State :=
  {| owner := owner s; isProvider := isProvider s;
     lastSubmissionTime := lastSubmissionTime s;
     lastDecryptionRequestTime := lastDecryptionRequestTime s;
     cooldownSeconds := cooldownSeconds s; paused := paused s;
     decryptionContexts := decryptionContexts s; batches := batches s;
     totalEncryptedValue := totalEncryptedValue s;
     totalEncryptedShares := totalEncryptedShares s;
     batchEncryptedValue := v;
     batchEncryptedShares := batchEncryptedShares s;
     providerEncryptedValue := providerEncryptedValue s;
     providerEncryptedShares := providerEncryptedShares s |}.

Definition set_batchEncryptedShares (v : gmap Z Z) (s : State) : State :=
  {| owner := owner s; isProvider := isProvider s;
     lastSubmissionTime := lastSubmissionTime s;
     lastDecryptionRequestTime := lastDecryptionRequestTime s;
     cooldownSeconds := cooldownSeconds s; paused := paused s;
     decryptionContexts := decryptionContexts s; batches := batches s;
     totalEncryptedValue := totalEncryptedValue s;
     totalEncryptedShares := totalEncryptedShares s;
     batchEncryptedValue := batchEncryptedValue s;
     batchEncryptedShares := v;
     providerEncryptedValue := providerEncryptedValue s;
     providerEncryptedShares := providerEncryptedShares s |}.

Definition set_providerEncryptedValue (v : gmap (Z * Z) Z) (s : State) : State :=
  {| owner := owner s; isProvider := isProvider s;
     lastSubmissionTime := lastSubmissionTime s;
     lastDecryptionRequestTime := lastDecryptionRequestTime s;
     cooldownSeconds := cooldownSeconds s; paused := paused s;
     decryptionContexts := decryptionContexts s; batches := batches s;
     totalEncryptedValue := totalEncryptedValue s;
     totalEncryptedShares := totalEncryptedShares s;
     batchEncryptedValue := batchEncryptedValue s;
     batchEncryptedShares := batchEncryptedShares s;
     providerEncryptedValue := v;
     providerEncryptedShares := providerEncryptedShares s |}.

Definition set_providerEncryptedShares (v : gmap (Z * Z) Z) (s : State) : State :=
  {| owner := owner s; isProvider := isProvider s;
     lastSubmissionTime := lastSubmissionTime s;
     lastDecryptionRequestTime := lastDecryptionRequestTime s;
     cooldownSeconds := cooldownSeconds s; paused := paused s;
     decryptionContexts := decryptionContexts s; batches := batches s;
     totalEncryptedValue := totalEncryptedValue s;
     totalEncryptedShares := totalEncryptedShares s;
     batchEncryptedValue := batchEncryptedValue s;
     batchEncryptedShares := batchEncryptedShares s;
     providerEncryptedValue := providerEncryptedValue s;
     providerEncryptedShares := v |}.

(** ** Errors, events and calls to the FHE library *)

(** The custom errors of the contract, followed by the reverts that are
    none of them: [Panic 17] (0x11), which the compiler inserts for an
    overflowing checked addition, [DecodeFailure], the revert without
    data of [abi.decode] on malformed input, and [NotInitializedMessage],
    the string revert of [_requireInitialized]. *)
Inductive Error :=
  | NotOwner | NotProvider | Paused | CooldownActive | BatchDoesNotExist
  | BatchClosed | InvalidBatch | ReplayAttempt | StateMismatch | InvalidProof
  | Panic (code : Z)
  | DecodeFailure
  | NotInitializedMessage.

Definition typed_error (e : Error) : bool :=
  match e with
  | Panic _ | DecodeFailure | NotInitializedMessage => false
  | _ => true
  end.

Inductive Event :=
  | EvOwnershipTransferred (previousOwner newOwner : address)
  | EvProviderAdded (provider : address)
  | EvProviderRemoved (provider : address)
  | EvCooldownSecondsSet (oldCooldown newCooldown : uint256)
  | EvPaused (account : address)
  | EvUnpaused (account : address)
  | EvBatchOpened (id : uint256)
  | EvBatchClosed (id : uint256)
  | EvDataSubmitted (provider : address) (id : uint256)
      (encryptedValueCiphertext encryptedSharesCiphertext : euint32)
  | EvDecryptionRequested (requestId : uint256) (id : uint256) (h : bytes32)
  | EvDecryptionCompleted (requestId : uint256) (id : uint256)
      (totalValue totalShares : Z).

(** What a call does besides writing storage: the events it emits and the
    operations it asks of the FHE library, in program order. *)
Inductive Effect :=
  | Emit (ev : Event)
  | FheTrivialEncrypt (plaintext : Z)
  | FheAdd (lhs rhs : euint32)
  | FheRequestDecryption (cts : list bytes32).

(** ** The execution monad *)

(** The storage and the effects performed so far in the running call. *)
Record Machine := mkMachine {
  storage : State;
  effects : list Effect
}.

(** A computation either finishes with a value or reverts with an error;
    both carry the machine as it is at that point.  The roll-back of a
    reverted call is applied by [transact] below, not here. *)
Inductive Outcome (A : Type) :=
  | Done (a : A) (m : Machine)
  | Abort (e : Error) (m : Machine).
Arguments Done {A} a m.
Arguments Abort {A} e m.

Definition M (A : Type) : Type := Machine -> Outcome A.

Definition ret {A} (a : A) : M A := fun m => Done a m.

Definition bind {A B} (c : M A) (k : A -> M B) : M B :=
  fun m => match c m with
           | Done a m' => k a m'
           | Abort e m' => Abort e m'
           end.

Notation "x <- c ;; k" := (bind c (fun x => k))
  (at level 100, c at next level, right associativity).
Notation "c ;;; k" := (bind c (fun _ => k))
  (at level 100, right associativity).

Definition revert {A} (e : Error) : M A := fun m => Abort e m.

Definition sread {A} (f : State -> A) : M A := fun m => Done (f (storage m)) m.

Definition swrite (f : State -> State) : M unit :=
  fun m => Done tt {| storage := f (storage m); effects := effects m |}.

Definition perform (x : Effect) : M unit :=
  fun m => Done tt {| storage := storage m; effects := effects m ++ [x] |}.

Definition emit (ev : Event) : M unit := perform (Emit ev).

(** [if (c) revert E();] *)
Definition revert_if (c : bool) (e : Error) : M unit :=
  fun m => if c then Abort e m else Done tt m.

(** [if (c) { k }] *)
Definition when (c : bool) (k : M unit) : M unit :=
  fun m => if c then k m else Done tt m.

(** Checked addition of two [uint256] (Solidity 0.8): reverts with
    [Panic(0x11)] when the sum does not fit. *)
Definition checked_add (a b : uint256) : M uint256 :=
  fun m => if a + b <=? MAX_UINT256 then Done (a + b) m else Abort (Panic 17) m.

(** ** The environment of a call *)

(** [msg.sender], [block.timestamp], and the identifier that
    [FHE.requestDecryption] hands out if the call reaches it: the library
    chooses it, so it is an input of the call here. *)
Record Tx := mkTx {
  msg_sender : address;
  block_timestamp : uint256;
  next_requestId : uint256
}.

Definition tx_wf (tx : Tx) : Prop :=
  0 <= block_timestamp tx <= MAX_UINT256.

(** The operations the contract imports: the FHE library of
    @fhevm/solidity (trivial encryption, homomorphic addition, the
    initialisation test, the check of a decryption proof), the EVM's
    [keccak256], and the address the contract is deployed at. *)
Class Fhevm := {
  FHE_asEuint32 : Z -> euint32;
  FHE_add : euint32 -> euint32 -> euint32;
  FHE_isInitialized : euint32 -> bool;
  FHE_checkSignatures : uint256 -> bytes -> bytes -> bool;
  keccak256 : list Z -> bytes32;
  this_address : address
}.

(** ** ABI coding *)

(** A 32-byte big-endian word. *)
Definition be_word (bs : bytes) : Z :=
  fold_left (fun acc b => acc * 256 + Z.of_N (Byte.to_N b)) bs 0.

(** [abi.decode(data, (uint32, uint32))]: two head words, each of which
    must be a clean [uint32]; data beyond the second word is ignored. *)
Definition abi_decode_uint32_uint32 (data : bytes) : option (Z * Z) :=
  if (length data <? 64)%nat then None
  else
    let w0 := be_word (take 32 data) in
    let w1 := be_word (take 32 (drop 32 data)) in
    if (w0 <=? MAX_UINT32) && (w1 <=? MAX_UINT32) then Some (w0, w1) else None.

(** [abi.encode(cts, a)] for [bytes32[] memory cts] and an [address a], as
    its sequence of 32-byte words: the offset of the array (two head
    words, 0x40), the address, then the array's length and elements. *)
Definition abi_encode_bytes32s_address (cts : list bytes32) (a : address) : list Z :=
  [64; a; Z.of_nat (length cts)] ++ cts.

(** ** The contract *)

Section Contract.
Context `{Fhevm}.

(** The library calls that reach the coprocessor are recorded as effects. *)
Definition asEuint32 (v : Z) : M euint32 :=
  perform (FheTrivialEncrypt v) ;;; ret (FHE_asEuint32 v).

Definition add (a b : euint32) : M euint32 :=
  perform (FheAdd a b) ;;; ret (FHE_add a b).

Definition requestDecryption (tx : Tx) (cts : list bytes32) : M uint256 :=
  perform (FheRequestDecryption cts) ;;; ret (next_requestId tx).

(** *** Modifiers *)

Definition onlyOwner (tx : Tx) : M unit :=
  o <- sread owner ;;
  revert_if (negb (msg_sender tx =? o)) NotOwner.

Definition onlyProvider (tx : Tx) : M unit :=
  p <- sread (fun s => isProvider_at s (msg_sender tx)) ;;
  revert_if (negb p) NotProvider.

Definition whenNotPaused : M unit :=
  p <- sread paused ;;
  revert_if p Paused.

(** *** Internal functions *)

Definition _initIfNeeded : M unit :=
  tv <- sread totalEncryptedValue ;;
  when (negb (FHE_isInitialized tv))
    (z <- asEuint32 0 ;; swrite (set_totalEncryptedValue z)) ;;;
  ts <- sread totalEncryptedShares ;;
  when (negb (FHE_isInitialized ts))
    (z <- asEuint32 0 ;; swrite (set_totalEncryptedShares z)).

(** [revert("FHE value not initialized")].  No function of the contract
    calls it. *)
Definition _requireInitialized (val : euint32) : M unit :=
  revert_if (negb (FHE_isInitialized val)) NotInitializedMessage.

Definition _getCiphertexts (s : State) (id : uint256) : list bytes32 :=
  [batchEncryptedValue_at s id; batchEncryptedShares_at s id].

Definition _hashCiphertexts (s : State) (id : uint256) : bytes32 :=
  keccak256 (abi_encode_bytes32s_address (_getCiphertexts s id) this_address).

(** *** Constructor and administration *)

Definition constructor (tx : Tx) : M unit :=
  swrite (set_owner (msg_sender tx)) ;;;
  swrite (set_cooldownSeconds 60) ;;;
  _initIfNeeded.

Definition transferOwnership (tx : Tx) (newOwner : address) : M unit :=
  onlyOwner tx ;;;
  previousOwner <- sread owner ;;
  swrite (set_owner newOwner) ;;;
  emit (EvOwnershipTransferred previousOwner newOwner).

Definition addProvider (tx : Tx) (provider : address) : M unit :=
  onlyOwner tx ;;;
  swrite (fun s => set_isProvider (<[provider := true]> (isProvider s)) s) ;;;
  emit (EvProviderAdded provider).

Definition removeProvider (tx : Tx) (provider : address) : M unit :=
  onlyOwner tx ;;;
  swrite (fun s => set_isProvider (<[provider := false]> (isProvider s)) s) ;;;
  emit (EvProviderRemoved provider).

Definition setCooldownSeconds (tx : Tx) (newCooldownSeconds : uint256) : M unit :=
  onlyOwner tx ;;;
  oldCooldown <- sread cooldownSeconds ;;
  swrite (set_cooldownSeconds newCooldownSeconds) ;;;
  emit (EvCooldownSecondsSet oldCooldown newCooldownSeconds).

Definition pause (tx : Tx) : M unit :=
  onlyOwner tx ;;;
  whenNotPaused ;;;
  swrite (set_paused true) ;;;
  emit (EvPaused (msg_sender tx)).

Definition unpause (tx : Tx) : M unit :=
  onlyOwner tx ;;;
  swrite (set_paused false) ;;;
  emit (EvUnpaused (msg_sender tx)).

(** *** Batch life cycle *)

Definition openBatch (tx : Tx) (id : uint256) : M unit :=
  onlyOwner tx ;;;
  whenNotPaused ;;;
  b <- sread (fun s => batches_at s id) ;;
  revert_if (exists_ b) InvalidBatch ;;;
  swrite (fun s => set_batches
                     (<[id := {| exists_ := true; closed := false |}]> (batches s)) s) ;;;
  emit (EvBatchOpened id).

Definition closeBatch (tx : Tx) (id : uint256) : M unit :=
  onlyOwner tx ;;;
  whenNotPaused ;;;
  b <- sread (fun s => batches_at s id) ;;
  revert_if (negb (exists_ b)) BatchDoesNotExist ;;;
  b <- sread (fun s => batches_at s id) ;;
  revert_if (closed b) BatchClosed ;;;
  swrite (fun s => set_batches
                     (<[id := {| exists_ := exists_ (batches_at s id);
                                 closed := true |}]> (batches s)) s) ;;;
  emit (EvBatchClosed id).

(** *** Submission ledger *)

Definition submitData (tx : Tx) (id : uint256) (value shares : Z) : M unit :=
  onlyProvider tx ;;;
  whenNotPaused ;;;
  last <- sread (fun s => lastSubmissionTime_at s (msg_sender tx)) ;;
  cd <- sread cooldownSeconds ;;
  limit <- checked_add last cd ;;
  revert_if (block_timestamp tx <? limit) CooldownActive ;;;
  b <- sread (fun s => batches_at s id) ;;
  revert_if (negb (exists_ b)) BatchDoesNotExist ;;;
  b <- sread (fun s => batches_at s id) ;;
  revert_if (closed b) BatchClosed ;;;

  swrite (fun s => set_lastSubmissionTime
                     (<[msg_sender tx := block_timestamp tx]> (lastSubmissionTime s)) s) ;;;

  _initIfNeeded ;;;
  encryptedValue <- asEuint32 value ;;
  encryptedShares <- asEuint32 shares ;;

  swrite (fun s => set_providerEncryptedValue
                     (<[(id, msg_sender tx) := encryptedValue]> (providerEncryptedValue s)) s) ;;;
  swrite (fun s => set_providerEncryptedShares
                     (<[(id, msg_sender tx) := encryptedShares]> (providerEncryptedShares s)) s) ;;;

  bv <- sread (fun s => batchEncryptedValue_at s id) ;;
  bv' <- add bv encryptedValue ;;
  swrite (fun s => set_batchEncryptedValue (<[id := bv']> (batchEncryptedValue s)) s) ;;;
  bs <- sread (fun s => batchEncryptedShares_at s id) ;;
  bs' <- add bs encryptedShares ;;
  swrite (fun s => set_batchEncryptedShares (<[id := bs']> (batchEncryptedShares s)) s) ;;;

  tv <- sread totalEncryptedValue ;;
  tv' <- add tv encryptedValue ;;
  swrite (set_totalEncryptedValue tv') ;;;
  ts <- sread totalEncryptedShares ;;
  ts' <- add ts encryptedShares ;;
  swrite (set_totalEncryptedShares ts') ;;;

  emit (EvDataSubmitted (msg_sender tx) id encryptedValue encryptedShares).

(** *** Decryption coordinator *)

Definition requestBatchDecryption (tx : Tx) (id : uint256) : M unit :=
  onlyOwner tx ;;;
  whenNotPaused ;;;
  last <- sread (fun s => lastDecryptionRequestTime_at s (msg_sender tx)) ;;
  cd <- sread cooldownSeconds ;;
  limit <- checked_add last cd ;;
  revert_if (block_timestamp tx <? limit) CooldownActive ;;;
  b <- sread (fun s => batches_at s id) ;;
  revert_if (negb (exists_ b)) BatchDoesNotExist ;;;

  swrite (fun s => set_lastDecryptionRequestTime
                     (<[msg_sender tx := block_timestamp tx]>
                        (lastDecryptionRequestTime s)) s) ;;;

  h <- sread (fun s => _hashCiphertexts s id) ;;
  cts <- sread (fun s => _getCiphertexts s id) ;;
  requestId <- requestDecryption tx cts ;;

  swrite (fun s => set_decryptionContexts
                     (<[requestId := {| batchId := id; stateHash := h;
                                        processed := false |}]>
                        (decryptionContexts s)) s) ;;;

  emit (EvDecryptionRequested requestId id h).

Definition myCallback (requestId : uint256) (cleartexts proof : bytes) : M unit :=
  c <- sread (fun s => decryptionContexts_at s requestId) ;;
  revert_if (processed c) ReplayAttempt ;;;
  ctx <- sread (fun s => decryptionContexts_at s requestId) ;;

  currentHash <- sread (fun s => _hashCiphertexts s (batchId ctx)) ;;
  revert_if (negb (currentHash =? stateHash ctx)) StateMismatch ;;;

  revert_if (negb (FHE_checkSignatures requestId cleartexts proof)) InvalidProof ;;;

  match abi_decode_uint32_uint32 cleartexts with
  | None => revert DecodeFailure
  | Some (totalValue, totalShares) =>
      swrite (fun s => set_decryptionContexts
                         (<[requestId :=
                              {| batchId := batchId (decryptionContexts_at s requestId);
                                 stateHash := stateHash (decryptionContexts_at s requestId);
                                 processed := true |}]>
                            (decryptionContexts s)) s) ;;;
      emit (EvDecryptionCompleted requestId (batchId ctx) totalValue totalShares)
  end.

(** ** Transactions *)

(** The external functions that write storage, with their arguments. *)
Inductive Call :=
  | TransferOwnership (newOwner : address)
  | AddProvider (provider : address)
  | RemoveProvider (provider : address)
  | SetCooldownSeconds (newCooldownSeconds : uint256)
  | Pause
  | Unpause
  | OpenBatch (id : uint256)
  | CloseBatch (id : uint256)
  | SubmitData (id : uint256) (value shares : Z)
  | RequestBatchDecryption (id : uint256)
  | MyCallback (requestId : uint256) (cleartexts proof : bytes).

Definition body (tx : Tx) (c : Call) : M unit :=
  match c with
  | TransferOwnership newOwner => transferOwnership tx newOwner
  | AddProvider p => addProvider tx p
  | RemoveProvider p => removeProvider tx p
  | SetCooldownSeconds n => setCooldownSeconds tx n
  | Pause => pause tx
  | Unpause => unpause tx
  | OpenBatch id => openBatch tx id
  | CloseBatch id => closeBatch tx id
  | SubmitData id value shares => submitData tx id value shares
  | RequestBatchDecryption id => requestBatchDecryption tx id
  | MyCallback requestId cleartexts proof => myCallback requestId cleartexts proof
  end.

(** What the chain records of a call: the new storage and the effects,
    or the error of the revert. *)
Inductive Receipt :=
  | Success (s' : State) (fx : list Effect)
  | Reverted (e : Error).

(** Running a body as a transaction on storage [s]. *)
Definition transact (c : M unit) (s : State) : Receipt :=
  match c {| storage := s; effects := [] |} with
  | Done _ m => Success (storage m) (effects m)
  | Abort e _ => Reverted e
  end.

(** The storage once the transaction is over: a revert restores [s]. *)
Definition state_after (s : State) (r : Receipt) : State :=
  match r with
  | Success s' _ => s'
  | Reverted _ => s
  end.

Definition succeeded (r : Receipt) : bool :=
  match r with
  | Success _ _ => true
  | Reverted _ => false
  end.

Definition effects_of (r : Receipt) : list Effect :=
  match r with
  | Success _ fx => fx
  | Reverted _ => []
  end.

Definition exec (s : State) (tc : Tx * Call) : State :=
  state_after s (transact (body (fst tc) (snd tc)) s).

(** A sequence of transactions, oldest first. *)
Definition run (s : State) (tcs : list (Tx * Call)) : State :=
  fold_left exec tcs s.

(** The storage right after deployment by [tx]'s sender. *)
Definition deployed (tx : Tx) : State :=
  state_after zero_storage (transact (constructor tx) zero_storage).

(** ** Vocabulary of the properties *)

(** The life-cycle phase of a batch id, read off its two flags. *)
Inductive Phase := Nonexistent | Open | Closed.

Definition phase (s : State) (id : uint256) : Phase :=
  if exists_ (batches_at s id)
  then (if closed (batches_at s id) then Closed else Open)
  else Nonexistent.

(** The moves of the life cycle: stay, open a new id, close an open one. *)
Definition phase_step (p q : Phase) : bool :=
  match p, q with
  | Nonexistent, Nonexistent | Nonexistent, Open
  | Open, Open | Open, Closed
  | Closed, Closed => true
  | _, _ => false
  end.

(** The transaction is a decryption request to which the library gives
    the id [requestId]. *)
Definition issues (requestId : uint256) (tc : Tx * Call) : bool :=
  match snd tc with
  | RequestBatchDecryption _ => next_requestId (fst tc) =? requestId
  | _ => false
  end.

(** The transaction is a callback for [requestId]. *)
Definition answers (requestId : uint256) (tc : Tx * Call) : bool :=
  match snd tc with
  | MyCallback r _ _ => r =? requestId
  | _ => false
  end.

(** The accepted [submitData] calls to batch [id] along a sequence of
    transactions started in [s], oldest first: sender, value, shares. *)
Fixpoint accepted_submissions (s : State) (tcs : list (Tx * Call)) (id : uint256)
  : list (address * Z * Z) :=
  match tcs with
  | [] => []
  | tc :: rest =>
      (match snd tc with
       | SubmitData id' value shares =>
           if (id' =? id) && succeeded (transact (body (fst tc) (snd tc)) s)
           then [(msg_sender (fst tc), value, shares)]
           else []
       | _ => []
       end) ++ accepted_submissions (exec s tc) rest id
  end.

(** The homomorphic sum of the plaintexts [vs] on top of the handle [h0]. *)
Definition homomorphic_sum (h0 : euint32) (vs : list Z) : euint32 :=
  fold_left (fun acc v => FHE_add acc (FHE_asEuint32 v)) vs h0.

(** The last submission of [a] in a list of submissions, if any. *)
Definition latest_by (a : address) (subs : list (address * Z * Z)) : option (Z * Z) :=
  fold_left (fun acc x => if fst (fst x) =? a then Some (snd (fst x), snd x) else acc)
            subs None.

(** The sum of plaintexts, before reduction modulo 2^32. *)
Definition plain_sum (vs : list Z) : Z := foldr Z.add 0 vs.

(** [c] only checks: finished or reverted, the machine is as it was. *)
Definition only_checks {A} (c : M A) : Prop :=
  forall m, match c m with
            | Done _ m' => m' = m
            | Abort _ m' => m' = m
            end.

(** [c] cannot revert. *)
Definition never_reverts {A} (c : M A) : Prop :=
  forall m, exists a m', c m = Done a m'.

(** If [c] reverts, the machine is still the one [c] started on: every
    check of [c] comes before its first write and its first effect. *)
Definition reverts_clean {A} (c : M A) : Prop :=
  forall m e m', c m = Abort e m' -> m' = m.

(** The calls guarded by [whenNotPaused] in the source. *)
Definition has_whenNotPaused (c : Call) : bool :=
  match c with
  | Pause | OpenBatch _ | CloseBatch _ | SubmitData _ _ _
  | RequestBatchDecryption _ => true
  | _ => false
  end.

(** The caller passes the access modifier of the call, if it has one. *)
Definition authorized (tx : Tx) (c : Call) (s : State) : bool :=
  match c with
  | SubmitData _ _ _ => isProvider_at s (msg_sender tx)
  | MyCallback _ _ _ => true
  | _ => msg_sender tx =? owner s
  end.

(** The calls that carry [onlyOwner] in the source. *)
Definition has_onlyOwner (c : Call) : bool :=
  match c with
  | SubmitData _ _ _ | MyCallback _ _ _ => false
  | _ => true
  end.

(** The administrative calls: [onlyOwner] is their only guard. *)
Definition is_admin (c : Call) : bool :=
  match c with
  | TransferOwnership _ | AddProvider _ | RemoveProvider _
  | SetCooldownSeconds _ | Unpause => true
  | _ => false
  end.

(** The events among the effects of a call. *)
Definition events_in (fx : list Effect) : list Event :=
  omap (fun x => match x with Emit ev => Some ev | _ => None end) fx.

(** The event log of a sequence of transactions started in [s]. *)
Fixpoint event_log (s : State) (tcs : list (Tx * Call)) : list Event :=
  match tcs with
  | [] => []
  | tc :: rest =>
      events_in (effects_of (transact (body (fst tc) (snd tc)) s))
      ++ event_log (exec s tc) rest
  end.

(** What a reader of the log learns from one event about the owner, the
    membership of [p], the pause flag, the cooldown and the phase of
    batch [id]. *)
Definition replay_owner (o : address) (ev : Event) : address :=
  match ev with
  | EvOwnershipTransferred _ newOwner => newOwner
  | _ => o
  end.

Definition replay_provider (p : address) (b : bool) (ev : Event) : bool :=
  match ev with
  | EvProviderAdded q => if q =? p then true else b
  | EvProviderRemoved q => if q =? p then false else b
  | _ => b
  end.

Definition replay_paused (b : bool) (ev : Event) : bool :=
  match ev with
  | EvPaused _ => true
  | EvUnpaused _ => false
  | _ => b
  end.

Definition replay_cooldown (n : uint256) (ev : Event) : uint256 :=
  match ev with
  | EvCooldownSecondsSet _ newCooldown => newCooldown
  | _ => n
  end.

Definition replay_phase (id : uint256) (ph : Phase) (ev : Event) : Phase :=
  match ev with
  | EvBatchOpened i => if i =? id then Open else ph
  | EvBatchClosed i => if i =? id then Closed else ph
  | _ => ph
  end.

(** The accepted [submitData] calls to any batch along a sequence of
    transactions started in [s], oldest first: value, shares. *)
Fixpoint all_accepted_submissions (s : State) (tcs : list (Tx * Call))
  : list (Z * Z) :=
  match tcs with
  | [] => []
  | tc :: rest =>
      (match snd tc with
       | SubmitData _ value shares =>
           if succeeded (transact (body (fst tc) (snd tc)) s)
           then [(value, shares)]
           else []
       | _ => []
       end) ++ all_accepted_submissions (exec s tc) rest
  end.
End Contract.

(** ** A reference coprocessor

    An executable instance of [Fhevm], used to run the contract on
    concrete transactions.  A handle is the plaintext plus one, so that
    the zero word stays the uninitialised handle; the library's addition
    reads an uninitialised operand as zero; a proof is valid when it is
    the word of the request id followed by the cleartext bytes; the hash
    is a polynomial checksum that never returns zero. *)
Module Reference.

Definition decrypt (h : euint32) : Z := (if h =? 0 then 0 else h - 1) mod 2 ^ 32.

Definition trivial (v : Z) : euint32 := v mod 2 ^ 32 + 1.

Definition hash (ws : list Z) : bytes32 :=
  fold_left (fun acc w => acc * 31 + w + 1) ws 7 mod MAX_UINT256 + 1.

(** The 32-byte big-endian word of a number below 256. *)
Definition word32 (n : Z) : bytes :=
  replicate 31 x00 ++ [default x00 (Byte.of_N (Z.to_N n))].

#[export] Instance fhevm : Fhevm := {|
  FHE_asEuint32 := trivial;
  FHE_add := fun a b => trivial (decrypt a + decrypt b);
  FHE_isInitialized := fun h => negb (h =? 0);
  FHE_checkSignatures := fun requestId cleartexts proof =>
    bool_decide (Byte.to_N <$> proof = Byte.to_N <$> (word32 requestId ++ cleartexts));
  keccak256 := hash;
  this_address := 4919
|}.

Definition tx (sender now requestId : Z) : Tx :=
  {| msg_sender := sender; block_timestamp := now; next_requestId := requestId |}.

(** Address 1 deploys, registers the providers 2 and 3 and opens batch 1. *)
Definition deployer : Tx := tx 1 0 0.

Definition setup : list (Tx * Call) :=
  [(tx 1 10 0, AddProvider 2); (tx 1 11 0, AddProvider 3);
   (tx 1 12 0, OpenBatch 1)].

Definition s_open : State := run (deployed deployer) setup.

(** Provider 2 submits (100, 10), provider 3 submits (50, 5). *)
Definition two_submissions : list (Tx * Call) :=
  [(tx 2 100 0, SubmitData 1 100 10); (tx 3 101 0, SubmitData 1 50 5)].

Definition s_submitted : State := run s_open two_submissions.

(** The owner requests the decryption of batch 1 and receives id 7. *)
Definition request_7 : Tx * Call := (tx 1 200 7, RequestBatchDecryption 1).

Definition s_requested : State := exec s_submitted request_7.

(** The cleartexts (150, 15) and the proof the reference check accepts. *)
Definition cleartexts_150_15 : bytes := word32 150 ++ word32 15.
Definition proof_7 : bytes := word32 7 ++ cleartexts_150_15.

(** The callback for request 7 has been accepted. *)
Definition s_completed : State :=
  exec s_requested (tx 9 300 0, MyCallback 7 cleartexts_150_15 proof_7).

(** The owner pauses while request 7 is pending. *)
Definition s_paused : State := exec s_requested (tx 1 300 0, Pause).

(** The owner closes batch 1 after the two submissions. *)
Definition s_closed : State := exec s_submitted (tx 1 150 0, CloseBatch 1).

(** After provider 2's submission at time 100 the owner sets the
    cooldown to the largest [uint256]. *)
Definition s_long_cooldown : State :=
  exec s_submitted (tx 1 150 0, SetCooldownSeconds MAX_UINT256).

End Reference.

(** * Properties *)

(** ** Evaluating a body along its paths *)

Ltac unfold_body :=
  cbv beta iota zeta delta
    [exec state_after succeeded effects_of fst snd transact body constructor
     transferOwnership addProvider removeProvider setCooldownSeconds pause
     unpause openBatch closeBatch submitData requestBatchDecryption
     myCallback onlyOwner onlyProvider whenNotPaused _initIfNeeded
     asEuint32 add requestDecryption bind ret revert revert_if when sread
     swrite perform emit checked_add storage effects negb andb orb
     isProvider_at lastSubmissionTime_at lastDecryptionRequestTime_at
     decryptionContexts_at batches_at batchEncryptedValue_at
     batchEncryptedShares_at providerEncryptedValue_at
     providerEncryptedShares_at _hashCiphertexts _getCiphertexts];
  cbn [owner isProvider lastSubmissionTime lastDecryptionRequestTime
       cooldownSeconds paused decryptionContexts batches totalEncryptedValue
       totalEncryptedShares batchEncryptedValue batchEncryptedShares
       providerEncryptedValue providerEncryptedShares
       set_owner set_isProvider set_lastSubmissionTime
       set_lastDecryptionRequestTime set_cooldownSeconds set_paused
       set_decryptionContexts set_batches set_totalEncryptedValue
       set_totalEncryptedShares set_batchEncryptedValue
       set_batchEncryptedShares set_providerEncryptedValue
       set_providerEncryptedShares].

(** The scrutinee that blocks the evaluation of [t]. *)
Ltac head_scrut t k :=
  lazymatch t with
  | match ?x with _ => _ end => first [ head_scrut x k | k x ]
  | ?f _ => head_scrut f k
  end.

Ltac split_in t :=
  match t with
  | context [match ?x with _ => _ end] =>
      first [ head_scrut x ltac:(fun c => destruct c eqn:?) | destruct x eqn:? ]
  end.

(** Case analysis on the next check of the body; in an equation the
    left-hand side leads. *)
Ltac split_head :=
  first [ lazymatch goal with |- ?l = _ => split_in l end
        | lazymatch goal with |- ?g => split_in g end ];
  unfold_body.

Ltac close_path :=
  cbn [app];
  first [ reflexivity | congruence
        | repeat match goal with
                 | Heq : _ = _ |- _ => rewrite Heq
                 end; reflexivity ].

Ltac paths := unfold_body; repeat split_head; try close_path.

Section Mappings.
Context {K V : Type} `{Countable K}.

Lemma mload_insert (d : V) (m : gmap K V) (k : K) (v : V) :
  mload d (<[k := v]> m) k = v.
Proof. unfold mload. by rewrite lookup_insert_eq. Qed.

Lemma mload_insert_ne (d : V) (m : gmap K V) (k k' : K) (v : V) :
  k ≠ k' -> mload d (<[k := v]> m) k' = mload d m k'.
Proof. intros Hne. unfold mload. by rewrite lookup_insert_ne. Qed.

Lemma mload_unwritten (d : V) (m : gmap K V) (k : K) :
  m !! k = None -> mload d m k = d.
Proof. intros Hk. unfold mload. by rewrite Hk. Qed.
End Mappings.

(** ** Closed forms of the entry points *)

Section Outcomes.
Context `{Fhevm}.

Lemma myCallback_outcome (requestId : Z) (cleartexts proof : bytes) (s : State) :
  transact (myCallback requestId cleartexts proof) s =
  let c := decryptionContexts_at s requestId in
  if processed c then Reverted ReplayAttempt
  else if negb (_hashCiphertexts s (batchId c) =? stateHash c)
  then Reverted StateMismatch
  else if negb (FHE_checkSignatures requestId cleartexts proof)
  then Reverted InvalidProof
  else match abi_decode_uint32_uint32 cleartexts with
       | None => Reverted DecodeFailure
       | Some (totalValue, totalShares) =>
           Success
             (set_decryptionContexts
                (<[requestId := {| batchId := batchId c; stateHash := stateHash c;
                                   processed := true |}]> (decryptionContexts s)) s)
             [Emit (EvDecryptionCompleted requestId (batchId c) totalValue totalShares)]
       end.
Proof. paths. Qed.

Lemma requestBatchDecryption_outcome (tx : Tx) (id : Z) (s : State) :
  transact (requestBatchDecryption tx id) s =
  let last := lastDecryptionRequestTime_at s (msg_sender tx) in
  if negb (msg_sender tx =? owner s) then Reverted NotOwner
  else if paused s then Reverted Paused
  else if negb (last + cooldownSeconds s <=? MAX_UINT256) then Reverted (Panic 17)
  else if block_timestamp tx <? last + cooldownSeconds s then Reverted CooldownActive
  else if negb (exists_ (batches_at s id)) then Reverted BatchDoesNotExist
  else
    Success
      (set_decryptionContexts
         (<[next_requestId tx := {| batchId := id; stateHash := _hashCiphertexts s id;
                                    processed := false |}]> (decryptionContexts s))
         (set_lastDecryptionRequestTime
            (<[msg_sender tx := block_timestamp tx]> (lastDecryptionRequestTime s)) s))
      [FheRequestDecryption (_getCiphertexts s id);
       Emit (EvDecryptionRequested (next_requestId tx) id (_hashCiphertexts s id))].
Proof. paths. Qed.

Lemma openBatch_outcome (tx : Tx) (id : Z) (s : State) :
  transact (openBatch tx id) s =
  if negb (msg_sender tx =? owner s) then Reverted NotOwner
  else if paused s then Reverted Paused
  else if exists_ (batches_at s id) then Reverted InvalidBatch
  else Success
         (set_batches (<[id := {| exists_ := true; closed := false |}]> (batches s)) s)
         [Emit (EvBatchOpened id)].
Proof. paths. Qed.

Lemma closeBatch_outcome (tx : Tx) (id : Z) (s : State) :
  transact (closeBatch tx id) s =
  if negb (msg_sender tx =? owner s) then Reverted NotOwner
  else if paused s then Reverted Paused
  else if negb (exists_ (batches_at s id)) then Reverted BatchDoesNotExist
  else if closed (batches_at s id) then Reverted BatchClosed
  else Success
         (set_batches (<[id := {| exists_ := exists_ (batches_at s id);
                                  closed := true |}]> (batches s)) s)
         [Emit (EvBatchClosed id)].
Proof. paths. Qed.

(** [submitData]: the checks in source order; the accepted call is
    described field by field in [submitData_accepted]. *)
Lemma submitData_outcome (tx : Tx) (id value shares : Z) (s : State) :
  transact (submitData tx id value shares) s =
  let last := lastSubmissionTime_at s (msg_sender tx) in
  if negb (isProvider_at s (msg_sender tx)) then Reverted NotProvider
  else if paused s then Reverted Paused
  else if negb (last + cooldownSeconds s <=? MAX_UINT256) then Reverted (Panic 17)
  else if block_timestamp tx <? last + cooldownSeconds s then Reverted CooldownActive
  else if negb (exists_ (batches_at s id)) then Reverted BatchDoesNotExist
  else if closed (batches_at s id) then Reverted BatchClosed
  else Success (state_after s (transact (submitData tx id value shares) s))
               (effects_of (transact (submitData tx id value shares) s)).
Proof. paths. Qed.
End Outcomes.

(** ** What one transaction does to each part of the storage *)

Section Frames.
Context `{Fhevm}.

Lemma submitData_accepted (tx : Tx) (id value shares : Z) (s s' : State)
    (fx : list Effect) :
  transact (submitData tx id value shares) s = Success s' fx ->
  lastSubmissionTime s' = <[msg_sender tx := block_timestamp tx]> (lastSubmissionTime s)
  /\ providerEncryptedValue s' =
       <[(id, msg_sender tx) := FHE_asEuint32 value]> (providerEncryptedValue s)
  /\ providerEncryptedShares s' =
       <[(id, msg_sender tx) := FHE_asEuint32 shares]> (providerEncryptedShares s)
  /\ batchEncryptedValue s' =
       <[id := FHE_add (batchEncryptedValue_at s id) (FHE_asEuint32 value)]>
         (batchEncryptedValue s)
  /\ batchEncryptedShares s' =
       <[id := FHE_add (batchEncryptedShares_at s id) (FHE_asEuint32 shares)]>
         (batchEncryptedShares s)
  /\ totalEncryptedValue s' =
       FHE_add (if FHE_isInitialized (totalEncryptedValue s)
                then totalEncryptedValue s else FHE_asEuint32 0)
               (FHE_asEuint32 value)
  /\ totalEncryptedShares s' =
       FHE_add (if FHE_isInitialized (totalEncryptedShares s)
                then totalEncryptedShares s else FHE_asEuint32 0)
               (FHE_asEuint32 shares)
  /\ fx =
       (if FHE_isInitialized (totalEncryptedValue s) then [] else [FheTrivialEncrypt 0])
       ++ (if FHE_isInitialized (totalEncryptedShares s) then [] else [FheTrivialEncrypt 0])
       ++ [FheTrivialEncrypt value; FheTrivialEncrypt shares;
           FheAdd (batchEncryptedValue_at s id) (FHE_asEuint32 value);
           FheAdd (batchEncryptedShares_at s id) (FHE_asEuint32 shares);
           FheAdd (if FHE_isInitialized (totalEncryptedValue s)
                   then totalEncryptedValue s else FHE_asEuint32 0)
                  (FHE_asEuint32 value);
           FheAdd (if FHE_isInitialized (totalEncryptedShares s)
                   then totalEncryptedShares s else FHE_asEuint32 0)
                  (FHE_asEuint32 shares);
           Emit (EvDataSubmitted (msg_sender tx) id
                   (FHE_asEuint32 value) (FHE_asEuint32 shares))].
Proof.
  unfold_body. repeat split_head; intros Heq; try congruence;
    injection Heq as <- <-; repeat split; reflexivity.
Qed.

Lemma exec_batches (s : State) (tc : Tx * Call) :
  batches (exec s tc) =
  match snd tc with
  | OpenBatch id =>
      if succeeded (transact (body (fst tc) (snd tc)) s)
      then <[id := {| exists_ := true; closed := false |}]> (batches s)
      else batches s
  | CloseBatch id =>
      if succeeded (transact (body (fst tc) (snd tc)) s)
      then <[id := {| exists_ := exists_ (batches_at s id); closed := true |}]> (batches s)
      else batches s
  | _ => batches s
  end.
Proof. destruct tc as [tx []]; paths. Qed.

Lemma exec_decryptionContexts (s : State) (tc : Tx * Call) :
  decryptionContexts (exec s tc) =
  match snd tc with
  | RequestBatchDecryption id =>
      if succeeded (transact (body (fst tc) (snd tc)) s)
      then <[next_requestId (fst tc) :=
               {| batchId := id; stateHash := _hashCiphertexts s id;
                  processed := false |}]> (decryptionContexts s)
      else decryptionContexts s
  | MyCallback requestId _ _ =>
      if succeeded (transact (body (fst tc) (snd tc)) s)
      then <[requestId :=
               {| batchId := batchId (decryptionContexts_at s requestId);
                  stateHash := stateHash (decryptionContexts_at s requestId);
                  processed := true |}]> (decryptionContexts s)
      else decryptionContexts s
  | _ => decryptionContexts s
  end.
Proof. destruct tc as [tx []]; paths. Qed.

Lemma exec_batchEncryptedValue (s : State) (tc : Tx * Call) :
  batchEncryptedValue (exec s tc) =
  match snd tc with
  | SubmitData id value _ =>
      if succeeded (transact (body (fst tc) (snd tc)) s)
      then <[id := FHE_add (batchEncryptedValue_at s id) (FHE_asEuint32 value)]>
             (batchEncryptedValue s)
      else batchEncryptedValue s
  | _ => batchEncryptedValue s
  end.
Proof. destruct tc as [tx []]; paths. Qed.

Lemma exec_batchEncryptedShares (s : State) (tc : Tx * Call) :
  batchEncryptedShares (exec s tc) =
  match snd tc with
  | SubmitData id _ shares =>
      if succeeded (transact (body (fst tc) (snd tc)) s)
      then <[id := FHE_add (batchEncryptedShares_at s id) (FHE_asEuint32 shares)]>
             (batchEncryptedShares s)
      else batchEncryptedShares s
  | _ => batchEncryptedShares s
  end.
Proof. destruct tc as [tx []]; paths. Qed.

Lemma exec_providerEncryptedValue (s : State) (tc : Tx * Call) :
  providerEncryptedValue (exec s tc) =
  match snd tc with
  | SubmitData id value _ =>
      if succeeded (transact (body (fst tc) (snd tc)) s)
      then <[(id, msg_sender (fst tc)) := FHE_asEuint32 value]> (providerEncryptedValue s)
      else providerEncryptedValue s
  | _ => providerEncryptedValue s
  end.
Proof. destruct tc as [tx []]; paths. Qed.

Lemma exec_providerEncryptedShares (s : State) (tc : Tx * Call) :
  providerEncryptedShares (exec s tc) =
  match snd tc with
  | SubmitData id _ shares =>
      if succeeded (transact (body (fst tc) (snd tc)) s)
      then <[(id, msg_sender (fst tc)) := FHE_asEuint32 shares]> (providerEncryptedShares s)
      else providerEncryptedShares s
  | _ => providerEncryptedShares s
  end.
Proof. destruct tc as [tx []]; paths. Qed.

Lemma run_cons (s : State) (tc : Tx * Call) (tcs : list (Tx * Call)) :
  run s (tc :: tcs) = run (exec s tc) tcs.
Proof. reflexivity. Qed.

Lemma run_app (s : State) (tcs tcs' : list (Tx * Call)) :
  run s (tcs ++ tcs') = run (run s tcs) tcs'.
Proof. unfold run. apply fold_left_app. Qed.
End Frames.

(** ** The decryption callback *)

Section Callback.
Context `{Fhevm}.

(** A transaction that is neither a request that receives [requestId]
    nor a callback for it leaves the context of [requestId] alone. *)
Lemma exec_context_frame (requestId : Z) (s : State) (tc : Tx * Call) :
  issues requestId tc = false ->
  answers requestId tc = false ->
  decryptionContexts_at (exec s tc) requestId = decryptionContexts_at s requestId.
Proof.
  intros Hi Ha. unfold decryptionContexts_at. rewrite exec_decryptionContexts.
  destruct tc as [tx c]. unfold issues, answers in *. cbn [fst snd] in *.
  destruct c; try reflexivity;
    (destruct (succeeded _); [| reflexivity]);
    apply mload_insert_ne; intros Heq; apply Z.eqb_eq in Heq; congruence.
Qed.

Lemma run_context_frame (requestId : Z) (tcs : list (Tx * Call)) (s : State) :
  Forall (fun tc => issues requestId tc = false /\ answers requestId tc = false) tcs ->
  decryptionContexts_at (run s tcs) requestId = decryptionContexts_at s requestId.
Proof.
  intros Hall. revert s. induction Hall as [| tc tcs [Hi Ha] _ IH]; intros s.
  - reflexivity.
  - rewrite run_cons, IH. now apply exec_context_frame.
Qed.

(** Once set, the processed flag of a request survives every transaction
    except a new request that receives the same id. *)
Lemma exec_processed_stays (requestId : Z) (s : State) (tc : Tx * Call) :
  issues requestId tc = false ->
  processed (decryptionContexts_at s requestId) = true ->
  processed (decryptionContexts_at (exec s tc) requestId) = true.
Proof.
  intros Hi Hp.
  destruct (answers requestId tc) eqn:Ha.
  - unfold decryptionContexts_at. rewrite exec_decryptionContexts.
    destruct tc as [tx c]. unfold answers in Ha. cbn [fst snd] in *.
    destruct c; try discriminate Ha.
    apply Z.eqb_eq in Ha. subst requestId0.
    destruct (succeeded _); [| exact Hp].
    now rewrite mload_insert.
  - now rewrite exec_context_frame.
Qed.

Lemma run_processed_stays (requestId : Z) (tcs : list (Tx * Call)) (s : State) :
  Forall (fun tc => issues requestId tc = false) tcs ->
  processed (decryptionContexts_at s requestId) = true ->
  processed (decryptionContexts_at (run s tcs) requestId) = true.
Proof.
  intros Hall. revert s. induction Hall as [| tc tcs Hi _ IH]; intros s Hp.
  - exact Hp.
  - rewrite run_cons. apply IH. now apply exec_processed_stays.
Qed.

Lemma myCallback_sets_processed (requestId : Z) (cleartexts proof : bytes)
    (s s' : State) (fx : list Effect) :
  transact (myCallback requestId cleartexts proof) s = Success s' fx ->
  processed (decryptionContexts_at s' requestId) = true.
Proof.
  rewrite myCallback_outcome. cbv zeta.
  repeat (case_match; try discriminate).
  intros [= <- <-]. unfold decryptionContexts_at at 1. cbn [decryptionContexts set_decryptionContexts].
  now rewrite mload_insert.
Qed.

(** C1.  A callback is finalized at most once per request id: when the
    context of [requestId] is already processed, or the storage is the
    result of a successful callback for [requestId], then after any
    further transactions among which no new request receives the same id,
    a callback for [requestId] reverts with [ReplayAttempt] whatever
    cleartexts and proof it carries; it emits nothing and leaves the
    storage as it is. *)
Theorem callback_finalized_at_most_once
    (requestId : Z) (s : State) (tcs : list (Tx * Call)) (cleartexts proof : bytes) :
  (processed (decryptionContexts_at s requestId) = true
   \/ exists s0 cleartexts0 proof0 fx0,
        transact (myCallback requestId cleartexts0 proof0) s0 = Success s fx0) ->
  Forall (fun tc => issues requestId tc = false) tcs ->
  let r := transact (myCallback requestId cleartexts proof) (run s tcs) in
  r = Reverted ReplayAttempt
  /\ effects_of r = []
  /\ state_after (run s tcs) r = run s tcs.
Proof.
  intros Hdone Hall r.
  assert (Hp : processed (decryptionContexts_at s requestId) = true).
  { destruct Hdone as [Hp | (s0 & c0 & p0 & fx0 & Hrun)]; [exact Hp |].
    eapply myCallback_sets_processed, Hrun. }
  assert (Hr : r = Reverted ReplayAttempt).
  { subst r. rewrite myCallback_outcome. cbv zeta.
    now rewrite (run_processed_stays _ _ _ Hall Hp). }
  rewrite Hr. repeat split.
Qed.

(** The context a successful request stores. *)
Lemma requestBatchDecryption_context (tx : Tx) (id : Z) (s s' : State) (fx : list Effect) :
  transact (requestBatchDecryption tx id) s = Success s' fx ->
  decryptionContexts_at s' (next_requestId tx) =
    {| batchId := id; stateHash := _hashCiphertexts s id; processed := false |}
  /\ In (Emit (EvDecryptionRequested (next_requestId tx) id (_hashCiphertexts s id))) fx.
Proof.
  rewrite requestBatchDecryption_outcome. cbv zeta.
  repeat (case_match; try discriminate).
  intros [= <- <-]. split.
  - unfold decryptionContexts_at. cbn [decryptionContexts set_decryptionContexts].
    now rewrite mload_insert.
  - right. now left.
Qed.

(** C2.  Let a decryption request for batch [id] succeed in [s0] and
    receive the id [next_requestId tx0]; let any transactions follow that
    are neither a callback for that id nor a request receiving it again
    (submissions among them).  If the two ciphertext handles of the batch
    are then no longer those of [s0], and keccak256 does not collide on
    the two encodings, the callback reverts with [StateMismatch] whatever
    cleartexts and proof it carries: the stored hash is the keccak of
    (handles at request time, contract address), the callback recomputes
    it from the current handles and compares. *)
Theorem callback_rejects_changed_ciphertexts
    (tx0 : Tx) (id : Z) (s0 s1 : State) (fx : list Effect)
    (tcs : list (Tx * Call)) (cleartexts proof : bytes) :
  transact (requestBatchDecryption tx0 id) s0 = Success s1 fx ->
  Forall (fun tc => issues (next_requestId tx0) tc = false
                    /\ answers (next_requestId tx0) tc = false) tcs ->
  _getCiphertexts (run s1 tcs) id <> _getCiphertexts s0 id ->
  (keccak256 (abi_encode_bytes32s_address (_getCiphertexts (run s1 tcs) id) this_address)
   = keccak256 (abi_encode_bytes32s_address (_getCiphertexts s0 id) this_address) ->
   _getCiphertexts (run s1 tcs) id = _getCiphertexts s0 id) ->
  stateHash (decryptionContexts_at (run s1 tcs) (next_requestId tx0))
    = keccak256 (abi_encode_bytes32s_address (_getCiphertexts s0 id) this_address)
  /\ transact (myCallback (next_requestId tx0) cleartexts proof) (run s1 tcs)
     = Reverted StateMismatch.
Proof.
  intros Hreq Hall Hchanged Hnocoll.
  destruct (requestBatchDecryption_context _ _ _ _ _ Hreq) as [Hctx _].
  rewrite <- (run_context_frame _ tcs s1 Hall) in Hctx.
  split; [now rewrite Hctx |].
  rewrite myCallback_outcome. cbv zeta. rewrite Hctx. cbn [processed batchId stateHash].
  destruct (_hashCiphertexts (run s1 tcs) id =? _hashCiphertexts s0 id) eqn:Heq.
  - apply Z.eqb_eq in Heq. now apply Hnocoll in Heq.
  - reflexivity.
Qed.

Lemma deployed_no_context (deployer : Tx) :
  decryptionContexts (deployed deployer) = ∅.
Proof. unfold deployed. paths. Qed.

(** A callback on a context that was never written hashes batch 0 and
    compares with the zero word. *)
Lemma myCallback_unwritten (requestId : Z) (cleartexts proof : bytes) (s : State) :
  decryptionContexts s !! requestId = None ->
  keccak256 (abi_encode_bytes32s_address (_getCiphertexts s 0) this_address) <> 0 ->
  transact (myCallback requestId cleartexts proof) s = Reverted StateMismatch.
Proof.
  intros Hnone Hnz. rewrite myCallback_outcome. cbv zeta.
  unfold decryptionContexts_at. rewrite (mload_unwritten _ _ _ Hnone).
  cbn [processed batchId stateHash DecryptionContext_default].
  unfold _hashCiphertexts. apply Z.eqb_neq in Hnz. now rewrite Hnz.
Qed.

(** C10.  Provided keccak256 never returns the zero word on the encoding
    of two handles and the contract address: along any transactions from
    deployment among which no request receives the id [requestId], the
    context of [requestId] is never written (it reads as the all-zero
    default), and a callback for it reverts with [StateMismatch]; nothing
    is marked processed and nothing is emitted. *)
Theorem callback_without_request_rejected
    (deployer : Tx) (tcs : list (Tx * Call)) (requestId : Z) (cleartexts proof : bytes) :
  (forall a b : Z, keccak256 (abi_encode_bytes32s_address [a; b] this_address) <> 0) ->
  Forall (fun tc => issues requestId tc = false) tcs ->
  let s := run (deployed deployer) tcs in
  let r := transact (myCallback requestId cleartexts proof) s in
  decryptionContexts s !! requestId = None
  /\ decryptionContexts_at s requestId = DecryptionContext_default
  /\ r = Reverted StateMismatch
  /\ effects_of r = []
  /\ state_after s r = s.
Proof.
  intros Hnz Hall s r.
  assert (Hnone : decryptionContexts s !! requestId = None).
  { subst s. clear r.
    assert (Hinit : decryptionContexts (deployed deployer) !! requestId = None)
      by now rewrite deployed_no_context.
    revert Hinit. generalize (deployed deployer).
    induction Hall as [| tc tcs Hi _ IH]; intros s Hs; [exact Hs |].
    rewrite run_cons. apply IH. rewrite exec_decryptionContexts.
    destruct tc as [tx c]. unfold issues in Hi. cbn [fst snd] in *.
    destruct c; try exact Hs.
    - destruct (succeeded _); [| exact Hs].
      rewrite lookup_insert_ne; [exact Hs |].
      intros Heq. apply Z.eqb_eq in Heq. congruence.
    - destruct (Z.eq_dec requestId0 requestId) as [-> | Hne].
      + cbn [body]. rewrite (myCallback_unwritten _ _ _ _ Hs (Hnz _ _)). exact Hs.
      + destruct (succeeded _); [| exact Hs].
        now rewrite lookup_insert_ne. }
  assert (Hr : r = Reverted StateMismatch).
  { subst r. apply myCallback_unwritten; [exact Hnone | apply Hnz]. }
  split; [exact Hnone |]. split.
  - unfold decryptionContexts_at. now apply mload_unwritten.
  - rewrite Hr. repeat split.
Qed.
End Callback.

(** ** Batch life cycle *)

Section LifeCycle.
Context `{Fhevm}.

Lemma openBatch_accepted (tx : Tx) (id : Z) (s : State) :
  succeeded (transact (openBatch tx id) s) = true ->
  exists_ (batches_at s id) = false.
Proof.
  rewrite openBatch_outcome.
  repeat (case_match; try discriminate). reflexivity.
Qed.

Lemma closeBatch_accepted (tx : Tx) (id : Z) (s : State) :
  succeeded (transact (closeBatch tx id) s) = true ->
  exists_ (batches_at s id) = true /\ closed (batches_at s id) = false.
Proof.
  rewrite closeBatch_outcome.
  repeat (case_match; try discriminate). intros _.
  split; [| reflexivity]. now apply negb_false_iff.
Qed.

Lemma phase_insert (s s' : State) (id id' : Z) (b : Batch) :
  batches s' = <[id' := b]> (batches s) ->
  phase s' id =
    if decide (id' = id)
    then (if exists_ b then (if closed b then Closed else Open) else Nonexistent)
    else phase s id.
Proof.
  intros Hb. unfold phase, batches_at. rewrite Hb.
  case_decide as Hid.
  - subst id'. now rewrite mload_insert.
  - now rewrite mload_insert_ne.
Qed.

Lemma phase_same (s s' : State) (id : Z) :
  batches s' = batches s -> phase s' id = phase s id.
Proof. intros Hb. unfold phase, batches_at. now rewrite Hb. Qed.

Lemma phase_step_refl (p : Phase) : phase_step p p = true.
Proof. now destruct p. Qed.

(** One transaction moves a batch id along the life cycle or not at all. *)
Lemma exec_phase_step (s : State) (tc : Tx * Call) (id : Z) :
  phase_step (phase s id) (phase (exec s tc) id) = true.
Proof.
  pose proof (exec_batches s tc) as Hb.
  destruct tc as [tx c]. cbn [fst snd] in Hb.
  destruct c; try (rewrite (phase_same _ _ _ Hb); apply phase_step_refl).
  - (* openBatch *)
    cbn [body] in Hb.
    destruct (succeeded (transact (openBatch tx id0) s)) eqn:Hok;
      [| rewrite (phase_same _ _ _ Hb); apply phase_step_refl].
    apply openBatch_accepted in Hok.
    rewrite (phase_insert _ _ id _ _ Hb). case_decide as Hid.
    + subst id0. unfold phase. now rewrite Hok.
    + apply phase_step_refl.
  - (* closeBatch *)
    cbn [body] in Hb.
    destruct (succeeded (transact (closeBatch tx id0) s)) eqn:Hok;
      [| rewrite (phase_same _ _ _ Hb); apply phase_step_refl].
    apply closeBatch_accepted in Hok. destruct Hok as [Hex Hcl].
    rewrite (phase_insert _ _ id _ _ Hb). case_decide as Hid.
    + subst id0. unfold phase. cbn [exists_ closed]. now rewrite Hex, Hcl.
    + apply phase_step_refl.
Qed.

Lemma run_phase_kept (tcs : list (Tx * Call)) (s : State) (id : Z) :
  (phase s id <> Nonexistent -> phase (run s tcs) id <> Nonexistent)
  /\ (phase s id = Closed -> phase (run s tcs) id = Closed).
Proof.
  revert s. induction tcs as [| tc tcs IH]; intros s; [easy |].
  rewrite run_cons.
  pose proof (exec_phase_step s tc id) as Hstep.
  destruct (IH (exec s tc)) as [IH1 IH2].
  split; intros Hp.
  - apply IH1. destruct (phase s id), (phase (exec s tc) id); easy.
  - apply IH2. rewrite Hp in Hstep. now destruct (phase (exec s tc) id).
Qed.

(** C6.  Per batch id the life cycle is nonexistent, open, closed, with
    closed terminal.  [openBatch] on an id that exists (open or closed)
    never succeeds and, past the owner and pause modifiers, reverts with
    [InvalidBatch]; [closeBatch] on an id that does not exist never
    succeeds and reverts with [BatchDoesNotExist]; [closeBatch] on a
    closed batch never succeeds and reverts with [BatchClosed].  Every
    transaction moves the phase of an id by one step of the cycle or not
    at all, so along any sequence of transactions an existing batch keeps
    existing and a closed batch stays closed. *)
Theorem batch_life_cycle (s : State) (id : Z) (tx : Tx) (tc : Tx * Call)
    (tcs : list (Tx * Call)) :
  (exists_ (batches_at s id) = true ->
     succeeded (transact (openBatch tx id) s) = false
     /\ (msg_sender tx = owner s -> paused s = false ->
         transact (openBatch tx id) s = Reverted InvalidBatch))
  /\ (exists_ (batches_at s id) = false ->
     succeeded (transact (closeBatch tx id) s) = false
     /\ (msg_sender tx = owner s -> paused s = false ->
         transact (closeBatch tx id) s = Reverted BatchDoesNotExist))
  /\ (exists_ (batches_at s id) = true -> closed (batches_at s id) = true ->
     succeeded (transact (closeBatch tx id) s) = false
     /\ (msg_sender tx = owner s -> paused s = false ->
         transact (closeBatch tx id) s = Reverted BatchClosed))
  /\ phase_step (phase s id) (phase (exec s tc) id) = true
  /\ (exists_ (batches_at s id) = true ->
      exists_ (batches_at (run s tcs) id) = true)
  /\ (phase s id = Closed -> phase (run s tcs) id = Closed).
Proof.
  split; [intros Hex; split; [| intros Ho Hp] |].
  { rewrite openBatch_outcome, Hex. now repeat case_match. }
  { rewrite openBatch_outcome, Hex, Hp, Ho, Z.eqb_refl. reflexivity. }
  split; [intros Hex; split; [| intros Ho Hp] |].
  { rewrite closeBatch_outcome, Hex. now repeat case_match. }
  { rewrite closeBatch_outcome, Hex, Hp, Ho, Z.eqb_refl. reflexivity. }
  split; [intros Hex Hcl; split; [| intros Ho Hp] |].
  { rewrite closeBatch_outcome, Hex, Hcl. now repeat case_match. }
  { rewrite closeBatch_outcome, Hex, Hcl, Hp, Ho, Z.eqb_refl. reflexivity. }
  split; [apply exec_phase_step |].
  split; [| apply run_phase_kept].
  intros Hex. destruct (run_phase_kept tcs s id) as [Hkeep _].
  unfold phase in Hkeep. rewrite Hex in Hkeep.
  destruct (exists_ (batches_at (run s tcs) id)); [reflexivity |].
  exfalso. apply Hkeep; [now destruct (closed _) | reflexivity].
Qed.
End LifeCycle.

(** ** Access control, pause and cooldown *)

Section Gates.
Context `{Fhevm}.

Lemma pause_outcome (tx : Tx) (s : State) :
  transact (pause tx) s =
  if negb (msg_sender tx =? owner s) then Reverted NotOwner
  else if paused s then Reverted Paused
  else Success (set_paused true s) [Emit (EvPaused (msg_sender tx))].
Proof. paths. Qed.

(** The pause flag plays no part in the callback. *)
Lemma myCallback_ignores_pause (requestId : Z) (cleartexts proof : bytes)
    (s : State) (b : bool) :
  succeeded (transact (myCallback requestId cleartexts proof) (set_paused b s))
  = succeeded (transact (myCallback requestId cleartexts proof) s)
  /\ forall e,
       transact (myCallback requestId cleartexts proof) (set_paused b s) = Reverted e
       <-> transact (myCallback requestId cleartexts proof) s = Reverted e.
Proof.
  rewrite !myCallback_outcome. cbv zeta.
  change (decryptionContexts_at (set_paused b s) requestId)
    with (decryptionContexts_at s requestId).
  change (_hashCiphertexts (set_paused b s)) with (_hashCiphertexts s).
  repeat case_match; split; try reflexivity; intros e; split; congruence.
Qed.

(** C3, as the code has it.  With the pause flag set, each call guarded
    by [whenNotPaused] (pause, openBatch, closeBatch, submitData,
    requestBatchDecryption) fails: with [Paused] when the caller passes
    the access modifier, which runs first, and with that modifier's error
    otherwise.  The decryption callback has no such guard: it never
    reverts with [Paused], and it succeeds or reverts exactly as it would
    with the flag cleared. *)
Theorem pause_gate (tx : Tx) (c : Call) (s : State)
    (requestId : Z) (cleartexts proof : bytes) :
  paused s = true ->
  (has_whenNotPaused c = true ->
     succeeded (transact (body tx c) s) = false
     /\ (authorized tx c s = true -> transact (body tx c) s = Reverted Paused)
     /\ (authorized tx c s = false ->
         transact (body tx c) s = Reverted NotOwner
         \/ transact (body tx c) s = Reverted NotProvider))
  /\ transact (myCallback requestId cleartexts proof) s <> Reverted Paused
  /\ succeeded (transact (myCallback requestId cleartexts proof) s)
     = succeeded (transact (myCallback requestId cleartexts proof) (set_paused false s)).
Proof.
  intros Hp. split; [intros Hc | split].
  - destruct c; try discriminate Hc; cbn [body authorized].
    + rewrite pause_outcome, Hp.
      destruct (msg_sender tx =? owner s); cbn [negb succeeded];
        repeat split; intros; try discriminate; auto.
    + rewrite openBatch_outcome, Hp.
      destruct (msg_sender tx =? owner s); cbn [negb succeeded];
        repeat split; intros; try discriminate; auto.
    + rewrite closeBatch_outcome, Hp.
      destruct (msg_sender tx =? owner s); cbn [negb succeeded];
        repeat split; intros; try discriminate; auto.
    + rewrite submitData_outcome. cbv zeta. rewrite Hp.
      destruct (isProvider_at s (msg_sender tx)); cbn [negb succeeded];
        repeat split; intros; try discriminate; auto.
    + rewrite requestBatchDecryption_outcome. cbv zeta. rewrite Hp.
      destruct (msg_sender tx =? owner s); cbn [negb succeeded];
        repeat split; intros; try discriminate; auto.
  - rewrite myCallback_outcome. cbv zeta. now repeat case_match.
  - symmetry. apply myCallback_ignores_pause.
Qed.

(** C4, as the code has it.  For a call whose timestamp is a [uint256]:
    [submitData] is accepted exactly when the caller is a registered
    provider, the contract is not paused, the batch exists and is open,
    and [lastSubmissionTime] of the caller plus [cooldownSeconds] is at
    most the timestamp.  Otherwise it reverts, the checks running in the
    order NotProvider, Paused, cooldown, BatchDoesNotExist, BatchClosed;
    the cooldown check reverts with [CooldownActive], except that it
    reverts with the arithmetic panic 0x11 when the sum exceeds the
    largest [uint256].  The caller's [lastSubmissionTime] becomes the
    timestamp on an accepted call and no timestamp changes otherwise. *)
Theorem submitData_acceptance (tx : Tx) (id value shares : Z) (s : State) :
  tx_wf tx ->
  let r := transact (submitData tx id value shares) s in
  let provider := isProvider_at s (msg_sender tx) in
  let limit := lastSubmissionTime_at s (msg_sender tx) + cooldownSeconds s in
  let b := batches_at s id in
  (succeeded r = true <->
     provider = true /\ paused s = false /\ exists_ b = true /\ closed b = false
     /\ limit <= block_timestamp tx)
  /\ (r = Reverted NotProvider <-> provider = false)
  /\ (r = Reverted Paused <-> provider = true /\ paused s = true)
  /\ (r = Reverted (Panic 17) <->
        provider = true /\ paused s = false /\ MAX_UINT256 < limit)
  /\ (r = Reverted CooldownActive <->
        provider = true /\ paused s = false
        /\ limit <= MAX_UINT256 /\ block_timestamp tx < limit)
  /\ (r = Reverted BatchDoesNotExist <->
        provider = true /\ paused s = false /\ limit <= block_timestamp tx
        /\ exists_ b = false)
  /\ (r = Reverted BatchClosed <->
        provider = true /\ paused s = false /\ limit <= block_timestamp tx
        /\ exists_ b = true /\ closed b = true)
  /\ (forall a, lastSubmissionTime_at (state_after s r) a =
                if succeeded r && (a =? msg_sender tx)
                then block_timestamp tx
                else lastSubmissionTime_at s a).
Proof.
  intros [Hlo Hhi] r provider limit b.
  assert (Hlast : forall a, lastSubmissionTime_at (state_after s r) a =
                            if succeeded r && (a =? msg_sender tx)
                            then block_timestamp tx
                            else lastSubmissionTime_at s a).
  { intros a. destruct r as [s' fx |] eqn:Hr; [| reflexivity].
    apply submitData_accepted in Hr. destruct Hr as (Hl & _).
    cbn [state_after succeeded andb]. unfold lastSubmissionTime_at. rewrite Hl.
    destruct (a =? msg_sender tx) eqn:Ha.
    - apply Z.eqb_eq in Ha. subst a. now rewrite mload_insert.
    - apply Z.eqb_neq in Ha. now rewrite mload_insert_ne. }
  revert Hlast. subst r. rewrite submitData_outcome. cbv zeta.
  fold provider limit b. intros Hlast.
  destruct provider; cbn [negb];
    [| repeat split; intros; try discriminate; try tauto; try easy].
  destruct (paused s); [repeat split; intros; try discriminate; try tauto; try easy |].
  destruct (limit <=? MAX_UINT256) eqn:Hov; cbn [negb];
    [apply Z.leb_le in Hov | apply Z.leb_gt in Hov;
       repeat split; intros; try discriminate; try tauto; try easy; try lia ].
  destruct (block_timestamp tx <? limit) eqn:Hcd;
    [apply Z.ltb_lt in Hcd | apply Z.ltb_ge in Hcd];
    [repeat split; intros; try discriminate; try tauto; try easy; try lia |].
  destruct (exists_ b); cbn [negb];
    [| repeat split; intros; try discriminate; try tauto; try easy; try lia].
  destruct (closed b);
    repeat split; intros; try discriminate; try tauto; try easy; try lia.
Qed.

(** C8.  For the owner, with the contract not paused and
    [lastDecryptionRequestTime] of the caller plus [cooldownSeconds] at
    most the timestamp: [requestBatchDecryption] succeeds on every batch
    that exists, closed or not, and reverts with [BatchDoesNotExist] on an
    id that does not exist.  Its cooldown is its own: the call neither
    reads nor writes [lastSubmissionTime], and [submitData] never writes
    [lastDecryptionRequestTime]. *)
Theorem requestBatchDecryption_any_existing_batch
    (tx : Tx) (id : Z) (s : State) :
  tx_wf tx ->
  msg_sender tx = owner s ->
  paused s = false ->
  lastDecryptionRequestTime_at s (msg_sender tx) + cooldownSeconds s
    <= block_timestamp tx ->
  let r := transact (requestBatchDecryption tx id) s in
  (exists_ (batches_at s id) = true ->
     succeeded r = true
     /\ lastDecryptionRequestTime_at (state_after s r) (msg_sender tx)
        = block_timestamp tx)
  /\ (exists_ (batches_at s id) = false -> r = Reverted BatchDoesNotExist)
  /\ lastSubmissionTime (state_after s r) = lastSubmissionTime s
  /\ (forall m, succeeded (transact (requestBatchDecryption tx id)
                             (set_lastSubmissionTime m s)) = succeeded r)
  /\ (forall tx' id' value shares,
        lastDecryptionRequestTime
          (state_after s (transact (submitData tx' id' value shares) s))
        = lastDecryptionRequestTime s).
Proof.
  intros [Hlo Hhi] Ho Hp Hcd r.
  apply Z.eqb_eq in Ho.
  assert (Hguard : forall s0,
             owner s0 = owner s -> paused s0 = paused s ->
             lastDecryptionRequestTime s0 = lastDecryptionRequestTime s ->
             cooldownSeconds s0 = cooldownSeconds s ->
             batches s0 = batches s ->
             succeeded (transact (requestBatchDecryption tx id) s0)
             = exists_ (batches_at s id)).
  { intros s0 E1 E2 E3 E4 E5. rewrite requestBatchDecryption_outcome. cbv zeta.
    unfold lastDecryptionRequestTime_at, batches_at in *.
    rewrite E1, E2, E3, E4, E5, Ho, Hp. cbn [negb].
    replace (_ <=? MAX_UINT256) with true by (symmetry; apply Z.leb_le; lia).
    replace (block_timestamp tx <? _) with false by (symmetry; apply Z.ltb_ge; lia).
    cbn [negb]. now destruct (exists_ _). }
  split; [| split; [| split; [| split]]].
  - intros Hex. pose proof (Hguard s eq_refl eq_refl eq_refl eq_refl eq_refl) as Hs.
    fold r in Hs. rewrite Hex in Hs. split; [exact Hs |].
    subst r. revert Hs. rewrite requestBatchDecryption_outcome. cbv zeta.
    repeat (case_match; try discriminate). intros _.
    cbn [state_after]. unfold lastDecryptionRequestTime_at.
    cbn [lastDecryptionRequestTime set_decryptionContexts set_lastDecryptionRequestTime].
    now rewrite mload_insert.
  - intros Hex. subst r. rewrite requestBatchDecryption_outcome. cbv zeta.
    rewrite Ho, Hp, Hex. cbn [negb].
    replace (_ <=? MAX_UINT256) with true by (symmetry; apply Z.leb_le; lia).
    now replace (block_timestamp tx <? _) with false by (symmetry; apply Z.ltb_ge; lia).
  - subst r. rewrite requestBatchDecryption_outcome. cbv zeta.
    now repeat case_match.
  - intros m. rewrite (Hguard (set_lastSubmissionTime m s)) by reflexivity.
    symmetry. now apply Hguard.
  - intros tx' id' value shares. paths.
Qed.
End Gates.

(** ** Running totals and per-provider records *)

Section Totals.
Context `{Fhevm}.

Lemma homomorphic_sum_app (h0 : Z) (vs ws : list Z) :
  homomorphic_sum h0 (vs ++ ws) = homomorphic_sum (homomorphic_sum h0 vs) ws.
Proof. unfold homomorphic_sum. apply fold_left_app. Qed.

(** Every accepted submission to [id] adds its value on top of the batch
    total; nothing else touches the total. *)
Lemma run_batchEncryptedValue (tcs : list (Tx * Call)) (s : State) (id : Z) :
  batchEncryptedValue_at (run s tcs) id =
  homomorphic_sum (batchEncryptedValue_at s id)
                  (map (fun x => snd (fst x)) (accepted_submissions s tcs id)).
Proof.
  revert s. induction tcs as [| [tx c] tcs IH]; intros s; [reflexivity |].
  rewrite run_cons, IH. cbn [accepted_submissions fst snd].
  rewrite map_app, homomorphic_sum_app. f_equal.
  unfold batchEncryptedValue_at at 1. rewrite exec_batchEncryptedValue. cbn [fst snd].
  destruct c; try reflexivity.
  destruct (succeeded _); [| now rewrite andb_false_r].
  rewrite andb_true_r. destruct (id0 =? id) eqn:Hid.
  - apply Z.eqb_eq in Hid. subst id0. now rewrite mload_insert.
  - apply Z.eqb_neq in Hid. now rewrite mload_insert_ne.
Qed.

Lemma run_batchEncryptedShares (tcs : list (Tx * Call)) (s : State) (id : Z) :
  batchEncryptedShares_at (run s tcs) id =
  homomorphic_sum (batchEncryptedShares_at s id)
                  (map snd (accepted_submissions s tcs id)).
Proof.
  revert s. induction tcs as [| [tx c] tcs IH]; intros s; [reflexivity |].
  rewrite run_cons, IH. cbn [accepted_submissions fst snd].
  rewrite map_app, homomorphic_sum_app. f_equal.
  unfold batchEncryptedShares_at at 1. rewrite exec_batchEncryptedShares. cbn [fst snd].
  destruct c; try reflexivity.
  destruct (succeeded _); [| now rewrite andb_false_r].
  rewrite andb_true_r. destruct (id0 =? id) eqn:Hid.
  - apply Z.eqb_eq in Hid. subst id0. now rewrite mload_insert.
  - apply Z.eqb_neq in Hid. now rewrite mload_insert_ne.
Qed.

Lemma latest_by_app (a : Z) (l1 l2 : list (Z * Z * Z)) :
  latest_by a (l1 ++ l2) =
  match latest_by a l2 with
  | Some x => Some x
  | None => latest_by a l1
  end.
Proof.
  unfold latest_by. rewrite fold_left_app.
  generalize (fold_left
                (fun acc x => if fst (fst x) =? a then Some (snd (fst x), snd x) else acc)
                l1 None).
  induction l2 as [| x l2 IH]; intros acc; cbn [fold_left].
  - reflexivity.
  - rewrite IH. rewrite (IH (if fst (fst x) =? a then _ else None)).
    destruct (fold_left _ l2 None); [reflexivity |].
    now destruct (fst (fst x) =? a).
Qed.

(** The record of a provider for a batch holds the provider's latest
    accepted submission to it. *)
Lemma run_providerEncrypted (tcs : list (Tx * Call)) (s : State) (id a : Z) :
  providerEncryptedValue_at (run s tcs) id a =
    match latest_by a (accepted_submissions s tcs id) with
    | Some (value, _) => FHE_asEuint32 value
    | None => providerEncryptedValue_at s id a
    end
  /\ providerEncryptedShares_at (run s tcs) id a =
    match latest_by a (accepted_submissions s tcs id) with
    | Some (_, shares) => FHE_asEuint32 shares
    | None => providerEncryptedShares_at s id a
    end.
Proof.
  revert s. induction tcs as [| [tx c] tcs IH]; intros s; [now split |].
  rewrite run_cons. destruct (IH (exec s (tx, c))) as [IHv IHs].
  rewrite IHv, IHs. cbn [accepted_submissions fst snd]. rewrite latest_by_app.
  destruct (latest_by a (accepted_submissions (exec s (tx, c)) tcs id))
    as [[v sh] |]; [now split |].
  unfold providerEncryptedValue_at, providerEncryptedShares_at.
  rewrite exec_providerEncryptedValue, exec_providerEncryptedShares. cbn [fst snd].
  destruct c; try (now split).
  destruct (succeeded _); [| rewrite andb_false_r; now split].
  rewrite andb_true_r. destruct (id0 =? id) eqn:Hid.
  - apply Z.eqb_eq in Hid. subst id0. unfold latest_by. cbn [fold_left fst snd].
    destruct (msg_sender tx =? a) eqn:Ha.
    + apply Z.eqb_eq in Ha. subst a. now rewrite !mload_insert.
    + apply Z.eqb_neq in Ha.
      rewrite !mload_insert_ne by congruence. now split.
  - apply Z.eqb_neq in Hid. cbn [latest_by fold_left].
    rewrite !mload_insert_ne by congruence. now split.
Qed.

Lemma deployed_batch_totals_unwritten (deployer : Tx) (id : Z) :
  batchEncryptedValue_at (deployed deployer) id = 0
  /\ batchEncryptedShares_at (deployed deployer) id = 0.
Proof.
  unfold batchEncryptedValue_at, batchEncryptedShares_at, deployed. paths; now split.
Qed.

(** What the handles decrypt to, for any reading [decrypt] of handles as
    plaintexts under which encryption and addition are homomorphic. *)
Lemma decrypt_homomorphic_sum (decrypt : Z -> Z) (vs : list Z) (h0 : Z) :
  (forall h, 0 <= decrypt h < 2 ^ 32) ->
  (forall v, decrypt (FHE_asEuint32 v) = v mod 2 ^ 32) ->
  (forall x y, decrypt (FHE_add x y) = (decrypt x + decrypt y) mod 2 ^ 32) ->
  decrypt (homomorphic_sum h0 vs) = (decrypt h0 + plain_sum vs) mod 2 ^ 32.
Proof.
  intros Hrange Henc Hadd. revert h0.
  induction vs as [| v vs IH]; intros h0.
  - cbn [homomorphic_sum fold_left plain_sum foldr]. rewrite Z.add_0_r.
    symmetry. apply Z.mod_small, Hrange.
  - change (homomorphic_sum h0 (v :: vs))
      with (homomorphic_sum (FHE_add h0 (FHE_asEuint32 v)) vs).
    rewrite IH, Hadd, Henc. cbn [plain_sum foldr]. fold (plain_sum vs).
    rewrite Zplus_mod_idemp_l.
    replace (decrypt h0 + v mod 2 ^ 32 + plain_sum vs)
      with (decrypt h0 + plain_sum vs + v mod 2 ^ 32) by lia.
    rewrite Zplus_mod_idemp_r. f_equal. lia.
Qed.

(** C7.  Along any transactions from deployment, the running value total
    of a batch is the homomorphic sum, in order, of the values of all
    accepted [submitData] calls to it, whoever sent them and however
    often, and likewise for shares; under any homomorphic reading of the
    handles that reads the unwritten handle as zero, the totals decrypt
    to the plaintext sums modulo 2^32.  The record of a provider for the
    batch holds the encryption of that provider's latest accepted
    submission only. *)
Theorem batch_totals_accumulate
    (decrypt : Z -> Z) (deployer : Tx) (tcs : list (Tx * Call)) (id a : Z) :
  (forall h, 0 <= decrypt h < 2 ^ 32) ->
  decrypt 0 = 0 ->
  (forall v, decrypt (FHE_asEuint32 v) = v mod 2 ^ 32) ->
  (forall x y, decrypt (FHE_add x y) = (decrypt x + decrypt y) mod 2 ^ 32) ->
  let s := run (deployed deployer) tcs in
  let subs := accepted_submissions (deployed deployer) tcs id in
  let values := map (fun x => snd (fst x)) subs in
  let shares := map snd subs in
  batchEncryptedValue_at s id = homomorphic_sum 0 values
  /\ batchEncryptedShares_at s id = homomorphic_sum 0 shares
  /\ decrypt (batchEncryptedValue_at s id) = plain_sum values mod 2 ^ 32
  /\ decrypt (batchEncryptedShares_at s id) = plain_sum shares mod 2 ^ 32
  /\ providerEncryptedValue_at s id a =
       match latest_by a subs with
       | Some (value, _) => FHE_asEuint32 value
       | None => 0
       end
  /\ providerEncryptedShares_at s id a =
       match latest_by a subs with
       | Some (_, shares) => FHE_asEuint32 shares
       | None => 0
       end.
Proof.
  intros Hrange Hzero Henc Hadd s subs values shares.
  destruct (deployed_batch_totals_unwritten deployer id) as [Hv0 Hs0].
  assert (Hv : batchEncryptedValue_at s id = homomorphic_sum 0 values).
  { subst s values subs. now rewrite run_batchEncryptedValue, Hv0. }
  assert (Hs : batchEncryptedShares_at s id = homomorphic_sum 0 shares).
  { subst s shares subs. now rewrite run_batchEncryptedShares, Hs0. }
  split; [exact Hv |]. split; [exact Hs |].
  split; [| split].
  - rewrite Hv, (decrypt_homomorphic_sum decrypt) by assumption. now rewrite Hzero.
  - rewrite Hs, (decrypt_homomorphic_sum decrypt) by assumption. now rewrite Hzero.
  - destruct (run_providerEncrypted tcs (deployed deployer) id a) as [Hpv Hps].
    subst s subs. rewrite Hpv, Hps.
    assert (Hp0 : providerEncryptedValue_at (deployed deployer) id a = 0
                  /\ providerEncryptedShares_at (deployed deployer) id a = 0).
    { unfold providerEncryptedValue_at, providerEncryptedShares_at, deployed.
      paths; now split. }
    destruct Hp0 as [-> ->]. now split.
Qed.
End Totals.

(** ** Checks before effects *)

Section Atomicity.
Context `{Fhevm}.

Lemma only_checks_sread {A} (f : State -> A) : only_checks (sread f).
Proof. now intros m. Qed.

Lemma only_checks_revert_if (c : bool) (e : Error) : only_checks (revert_if c e).
Proof. intros m. unfold revert_if. now destruct c. Qed.

Lemma only_checks_checked_add (a b : Z) : only_checks (checked_add a b).
Proof. intros m. unfold checked_add. now destruct (a + b <=? MAX_UINT256). Qed.

Lemma only_checks_bind {A B} (c : M A) (k : A -> M B) :
  only_checks c -> (forall a, only_checks (k a)) -> only_checks (bind c k).
Proof.
  intros Hc Hk m. unfold bind. specialize (Hc m).
  destruct (c m) as [a m1 | e m1]; subst m1; [apply Hk | reflexivity].
Qed.

Lemma only_checks_onlyOwner (tx : Tx) : only_checks (onlyOwner tx).
Proof.
  apply only_checks_bind; [apply only_checks_sread |].
  intros o. apply only_checks_revert_if.
Qed.

Lemma only_checks_onlyProvider (tx : Tx) : only_checks (onlyProvider tx).
Proof.
  apply only_checks_bind; [apply only_checks_sread |].
  intros p. apply only_checks_revert_if.
Qed.

Lemma only_checks_whenNotPaused : only_checks whenNotPaused.
Proof.
  apply only_checks_bind; [apply only_checks_sread |].
  intros p. apply only_checks_revert_if.
Qed.

Lemma never_reverts_ret {A} (a : A) : never_reverts (ret a).
Proof. intros m. now exists a, m. Qed.

Lemma never_reverts_sread {A} (f : State -> A) : never_reverts (sread f).
Proof. intros m. now exists (f (storage m)), m. Qed.

Lemma never_reverts_swrite (f : State -> State) : never_reverts (swrite f).
Proof. intros m. unfold swrite. eauto. Qed.

Lemma never_reverts_perform (x : Effect) : never_reverts (perform x).
Proof. intros m. unfold perform. eauto. Qed.

Lemma never_reverts_bind {A B} (c : M A) (k : A -> M B) :
  never_reverts c -> (forall a, never_reverts (k a)) -> never_reverts (bind c k).
Proof.
  intros Hc Hk m. unfold bind. destruct (Hc m) as (a & m1 & ->). apply Hk.
Qed.

Lemma never_reverts_when (c : bool) (k : M unit) :
  never_reverts k -> never_reverts (when c k).
Proof. intros Hk m. unfold when. destruct c; [apply Hk | eauto]. Qed.

(** The steps that cannot revert, for [auto]. *)
Create HintDb total discriminated.
#[local] Hint Resolve never_reverts_ret never_reverts_sread never_reverts_swrite
  never_reverts_perform never_reverts_bind never_reverts_when : total.

Lemma never_reverts_emit (ev : Event) : never_reverts (emit ev).
Proof. unfold emit. auto with total. Qed.

Lemma never_reverts_asEuint32 (v : Z) : never_reverts (asEuint32 v).
Proof. unfold asEuint32. auto with total. Qed.

Lemma never_reverts_add (a b : Z) : never_reverts (add a b).
Proof. unfold add. auto with total. Qed.

Lemma never_reverts_requestDecryption (tx : Tx) (cts : list Z) :
  never_reverts (requestDecryption tx cts).
Proof. unfold requestDecryption. auto with total. Qed.

#[local] Hint Resolve never_reverts_emit never_reverts_asEuint32 never_reverts_add
  never_reverts_requestDecryption : total.

Lemma never_reverts__initIfNeeded : never_reverts _initIfNeeded.
Proof. unfold _initIfNeeded. auto 10 with total. Qed.

#[local] Hint Resolve never_reverts__initIfNeeded : total.

Lemma reverts_clean_revert {A} (e : Error) : reverts_clean (@revert A e).
Proof. intros m e' m' [= _ <-]. reflexivity. Qed.

Lemma reverts_clean_total {A} (c : M A) : never_reverts c -> reverts_clean c.
Proof. intros Hc m e m' Hab. destruct (Hc m) as (a & m1 & Hd). congruence. Qed.

Lemma reverts_clean_check {A B} (c : M A) (k : A -> M B) :
  only_checks c -> (forall a, reverts_clean (k a)) -> reverts_clean (bind c k).
Proof.
  intros Hc Hk m e m'. unfold bind. specialize (Hc m).
  destruct (c m) as [a m1 | e1 m1]; subst m1.
  - apply Hk.
  - now intros [= _ <-].
Qed.

(** Peel the leading checks of a body, then show that what follows
    cannot revert. *)
Ltac checks_then_writes :=
  repeat first
    [ apply reverts_clean_check;
      [ first [ apply only_checks_onlyOwner | apply only_checks_onlyProvider
              | apply only_checks_whenNotPaused | apply only_checks_sread
              | apply only_checks_revert_if | apply only_checks_checked_add ]
      | intros ? ]
    | apply reverts_clean_revert
    | solve [ apply reverts_clean_total; auto 40 with total ] ].

Lemma body_reverts_clean (tx : Tx) (c : Call) : reverts_clean (body tx c).
Proof.
  destruct c; cbn [body].
  - unfold transferOwnership. checks_then_writes.
  - unfold addProvider. checks_then_writes.
  - unfold removeProvider. checks_then_writes.
  - unfold setCooldownSeconds. checks_then_writes.
  - unfold pause. checks_then_writes.
  - unfold unpause. checks_then_writes.
  - unfold openBatch. checks_then_writes.
  - unfold closeBatch. checks_then_writes.
  - unfold submitData. checks_then_writes.
  - unfold requestBatchDecryption. checks_then_writes.
  - unfold myCallback. checks_then_writes.
    destruct (abi_decode_uint32_uint32 cleartexts) as [[totalValue totalShares] |];
      checks_then_writes.
Qed.

(** C9.  Every entry point is atomic, and by construction rather than by
    roll-back alone: whenever the body of a call reverts, with any error,
    the storage and the effects at the point of the revert are those the
    call started with, so all checks precede the first write; after the
    transaction the storage is unchanged and nothing was emitted.  For
    the callback: it succeeds only if the context was unprocessed, the
    recomputed hash equals the stored one and the proof verifies, and
    only then is the processed flag set; a rejected callback leaves every
    decryption context as it was. *)
Theorem entry_points_atomic
    (tx : Tx) (c : Call) (s : State) (m m' : Machine) (e : Error)
    (requestId : Z) (cleartexts proof : bytes) :
  (body tx c m = Abort e m' -> m' = m)
  /\ (transact (body tx c) s = Reverted e ->
      state_after s (transact (body tx c) s) = s
      /\ effects_of (transact (body tx c) s) = [])
  /\ (myCallback requestId cleartexts proof m = Abort e m' ->
      decryptionContexts (storage m') = decryptionContexts (storage m))
  /\ (succeeded (transact (myCallback requestId cleartexts proof) s) = true ->
      let ctx := decryptionContexts_at s requestId in
      processed ctx = false
      /\ _hashCiphertexts s (batchId ctx) = stateHash ctx
      /\ FHE_checkSignatures requestId cleartexts proof = true
      /\ decryptionContexts_at
           (state_after s (transact (myCallback requestId cleartexts proof) s))
           requestId
         = {| batchId := batchId ctx; stateHash := stateHash ctx; processed := true |}).
Proof.
  split; [apply body_reverts_clean |].
  split; [intros ->; now split |].
  split.
  - intros Hab. now rewrite (body_reverts_clean tx (MyCallback requestId cleartexts proof)
                                                 m e m' Hab).
  - rewrite myCallback_outcome. cbv zeta.
    destruct (processed _) eqn:Hp; [discriminate |].
    destruct (_ =? _) eqn:Hh; cbn [negb]; [| discriminate].
    destruct (FHE_checkSignatures _ _ _) eqn:Hsig; cbn [negb]; [| discriminate].
    destruct (abi_decode_uint32_uint32 cleartexts) as [[tv ts] |]; [| discriminate].
    intros _. apply Z.eqb_eq in Hh. repeat split; try assumption.
    cbn [state_after]. unfold decryptionContexts_at at 1.
    cbn [decryptionContexts set_decryptionContexts]. now rewrite mload_insert.
Qed.
End Atomicity.

(** ** Initialisation of encrypted amounts *)

Section Initialisation.
Context `{Fhevm}.

(** The first accepted submission to a batch adds to handles that were
    never written: the left operands of the two batch additions are the
    zero word. *)
Lemma first_submission_adds_to_unwritten_totals
    (tx : Tx) (id value shares : Z) (s s' : State) (fx : list Effect) :
  transact (submitData tx id value shares) s = Success s' fx ->
  batchEncryptedValue s !! id = None ->
  batchEncryptedShares s !! id = None ->
  In (FheAdd 0 (FHE_asEuint32 value)) fx
  /\ In (FheAdd 0 (FHE_asEuint32 shares)) fx.
Proof.
  intros Hok Hv Hs. apply submitData_accepted in Hok.
  destruct Hok as (_ & _ & _ & _ & _ & _ & _ & ->).
  unfold batchEncryptedValue_at, batchEncryptedShares_at.
  rewrite (mload_unwritten _ _ _ Hv), (mload_unwritten _ _ _ Hs).
  split; rewrite !in_app_iff; right; right; cbn [In]; auto 10.
Qed.

(** The global totals, which [_initIfNeeded] covers, are added to only
    once initialised. *)
Lemma submitData_global_adds_initialised
    (tx : Tx) (id value shares : Z) (s s' : State) (fx : list Effect) :
  FHE_isInitialized (FHE_asEuint32 0) = true ->
  transact (submitData tx id value shares) s = Success s' fx ->
  exists tv ts,
    FHE_isInitialized tv = true /\ FHE_isInitialized ts = true
    /\ In (FheAdd tv (FHE_asEuint32 value)) fx
    /\ In (FheAdd ts (FHE_asEuint32 shares)) fx.
Proof.
  intros Hz Hok. apply submitData_accepted in Hok.
  destruct Hok as (_ & _ & _ & _ & _ & _ & _ & ->).
  exists (if FHE_isInitialized (totalEncryptedValue s)
          then totalEncryptedValue s else FHE_asEuint32 0),
         (if FHE_isInitialized (totalEncryptedShares s)
          then totalEncryptedShares s else FHE_asEuint32 0).
  split; [now destruct (FHE_isInitialized (totalEncryptedValue s)) eqn:E |].
  split; [now destruct (FHE_isInitialized (totalEncryptedShares s)) eqn:E |].
  split; rewrite !in_app_iff; right; right; cbn [In]; auto 10.
Qed.
End Initialisation.

(** ** Concrete runs on the reference coprocessor *)

Import Reference.

Lemma reference_hash_nonzero (ws : list Z) : hash ws <> 0.
Proof.
  unfold hash.
  assert (Hpos : 0 < MAX_UINT256) by reflexivity.
  pose proof (Z.mod_pos_bound (fold_left (fun acc w => acc * 31 + w + 1) ws 7)
                              MAX_UINT256 Hpos).
  lia.
Qed.

Lemma reference_decrypt_range (h : Z) : 0 <= decrypt h < 2 ^ 32.
Proof. unfold decrypt. apply Z.mod_pos_bound. reflexivity. Qed.

Lemma reference_decrypt_trivial (v : Z) : decrypt (trivial v) = v mod 2 ^ 32.
Proof.
  unfold decrypt, trivial.
  pose proof (Z.mod_pos_bound v (2 ^ 32) eq_refl) as Hv.
  destruct (v mod 2 ^ 32 + 1 =? 0) eqn:Hz; [apply Z.eqb_eq in Hz; lia |].
  replace (v mod 2 ^ 32 + 1 - 1) with (v mod 2 ^ 32) by lia.
  apply Z.mod_mod. discriminate.
Qed.

(** C5, on the code: the first submission to batch 1 is accepted although
    the left operand of both batch additions is the handle that was never
    written, which the library's test reports as uninitialised. *)
Theorem submitData_adds_to_uninitialized_batch_total :
  let r := transact (submitData (tx 2 100 0) 1 100 10) s_open in
  succeeded r = true
  /\ batchEncryptedValue_at s_open 1 = 0
  /\ batchEncryptedShares_at s_open 1 = 0
  /\ FHE_isInitialized 0 = false
  /\ In (FheAdd 0 (FHE_asEuint32 100)) (effects_of r)
  /\ In (FheAdd 0 (FHE_asEuint32 10)) (effects_of r).
Proof.
  cbv zeta.
  destruct (transact (submitData (tx 2 100 0) 1 100 10) s_open) as [s' fx |] eqn:Hr;
    [| vm_compute in Hr; discriminate Hr].
  assert (Hv : batchEncryptedValue s_open !! 1 = None) by (vm_compute; reflexivity).
  assert (Hs : batchEncryptedShares s_open !! 1 = None) by (vm_compute; reflexivity).
  destruct (first_submission_adds_to_unwritten_totals _ _ _ _ _ _ _ Hr Hv Hs)
    as [Hav Has].
  split; [reflexivity |].
  split; [unfold batchEncryptedValue_at; now apply mload_unwritten |].
  split; [unfold batchEncryptedShares_at; now apply mload_unwritten |].
  split; [reflexivity |].
  split; assumption.
Qed.

(** C1 at a concrete run: request 7 has been finalized, provider 3 then
    submits again; the callback with the once valid proof is a replay. *)
Lemma callback_finalized_at_most_once_witness :
  processed (decryptionContexts_at s_completed 7) = true
  /\ transact (myCallback 7 cleartexts_150_15 proof_7)
              (run s_completed [(tx 3 400 0, SubmitData 1 1 1)])
     = Reverted ReplayAttempt.
Proof.
  assert (Hp : processed (decryptionContexts_at s_completed 7) = true)
    by (vm_compute; reflexivity).
  split; [exact Hp |].
  apply (callback_finalized_at_most_once 7 s_completed
           [(tx 3 400 0, SubmitData 1 1 1)] cleartexts_150_15 proof_7).
  - left. exact Hp.
  - repeat constructor.
Defined.

(** C2 at a concrete run: provider 3 submits between request 7 and its
    callback. *)
Lemma callback_rejects_changed_ciphertexts_witness :
  succeeded (transact (submitData (tx 3 250 0) 1 7 1) s_requested) = true
  /\ transact (myCallback 7 cleartexts_150_15 proof_7)
              (run s_requested [(tx 3 250 0, SubmitData 1 7 1)])
     = Reverted StateMismatch.
Proof.
  split; [vm_compute; reflexivity |].
  assert (Hreq : transact (requestBatchDecryption (tx 1 200 7) 1) s_submitted
                 = Success s_requested
                     (effects_of (transact (requestBatchDecryption (tx 1 200 7) 1)
                                           s_submitted)))
    by (vm_compute; reflexivity).
  apply (callback_rejects_changed_ciphertexts (tx 1 200 7) 1 s_submitted s_requested
           _ [(tx 3 250 0, SubmitData 1 7 1)] cleartexts_150_15 proof_7 Hreq).
  - repeat constructor.
  - intros Heq. vm_compute in Heq. discriminate Heq.
  - intros Heq. vm_compute in Heq. discriminate Heq.
Defined.

(** C3 as stated fails: with the contract paused, the callback for the
    pending request 7 is accepted and emits the completion event. *)
Lemma callback_runs_while_paused :
  paused s_paused = true
  /\ transact (myCallback 7 cleartexts_150_15 proof_7) s_paused <> Reverted Paused
  /\ succeeded (transact (myCallback 7 cleartexts_150_15 proof_7) s_paused) = true
  /\ effects_of (transact (myCallback 7 cleartexts_150_15 proof_7) s_paused)
     = [Emit (EvDecryptionCompleted 7 1 150 15)].
Proof.
  split; [vm_compute; reflexivity |].
  split; [intros Heq; vm_compute in Heq; discriminate Heq |].
  split; vm_compute; reflexivity.
Qed.

(** C3 as amended, at a concrete run: the paused contract refuses the
    owner's [openBatch] with [Paused]. *)
Lemma pause_gate_witness :
  paused s_paused = true
  /\ transact (openBatch (tx 1 400 0) 2) s_paused = Reverted Paused.
Proof.
  assert (Hp : paused s_paused = true) by (vm_compute; reflexivity).
  split; [exact Hp |].
  destruct (pause_gate (tx 1 400 0) (OpenBatch 2) s_paused 7 cleartexts_150_15 proof_7 Hp)
    as [Hgate _].
  destruct (Hgate eq_refl) as (_ & Hauth & _).
  apply Hauth. vm_compute. reflexivity.
Defined.

(** C4 as stated fails: provider 2, registered, contract not paused,
    batch 1 open, cooldown not elapsed; the call reverts with the
    arithmetic panic, which is none of the typed errors. *)
Lemma submitData_cooldown_overflow_panics :
  isProvider_at s_long_cooldown 2 = true
  /\ paused s_long_cooldown = false
  /\ exists_ (batches_at s_long_cooldown 1) = true
  /\ closed (batches_at s_long_cooldown 1) = false
  /\ lastSubmissionTime_at s_long_cooldown 2 = 100
  /\ cooldownSeconds s_long_cooldown = MAX_UINT256
  /\ transact (submitData (tx 2 200 0) 1 5 5) s_long_cooldown = Reverted (Panic 17)
  /\ typed_error (Panic 17) = false.
Proof. repeat split; vm_compute; reflexivity. Qed.

(** C4 as amended, at a concrete run: provider 2's first submission is
    accepted and starts the provider's cooldown. *)
Lemma submitData_acceptance_witness :
  tx_wf (tx 2 100 0)
  /\ succeeded (transact (submitData (tx 2 100 0) 1 100 10) s_open) = true
  /\ lastSubmissionTime_at
       (state_after s_open (transact (submitData (tx 2 100 0) 1 100 10) s_open)) 2
     = 100.
Proof.
  assert (Hwf : tx_wf (tx 2 100 0)) by (split; vm_compute; discriminate).
  split; [exact Hwf |].
  destruct (submitData_acceptance (tx 2 100 0) 1 100 10 s_open Hwf)
    as (Hacc & _ & _ & _ & _ & _ & _ & Hlast).
  assert (Hok : succeeded (transact (submitData (tx 2 100 0) 1 100 10) s_open) = true).
  { apply Hacc. repeat split; vm_compute; try reflexivity; discriminate. }
  split; [exact Hok |].
  rewrite Hlast, Hok. reflexivity.
Defined.

(** C6 at a concrete run: batch 1 is closed, id 2 was never opened. *)
Lemma batch_life_cycle_witness :
  phase s_closed 1 = Closed
  /\ transact (openBatch (tx 1 400 0) 1) s_closed = Reverted InvalidBatch
  /\ transact (closeBatch (tx 1 400 0) 1) s_closed = Reverted BatchClosed
  /\ transact (closeBatch (tx 1 400 0) 2) s_closed = Reverted BatchDoesNotExist
  /\ phase (run s_closed [(tx 1 500 0, OpenBatch 1); (tx 1 501 0, Unpause);
                          (tx 2 502 0, SubmitData 1 1 1)]) 1 = Closed.
Proof.
  assert (Hph : phase s_closed 1 = Closed) by (vm_compute; reflexivity).
  assert (Hex : exists_ (batches_at s_closed 1) = true) by (vm_compute; reflexivity).
  assert (Hcl : closed (batches_at s_closed 1) = true) by (vm_compute; reflexivity).
  assert (Hno : exists_ (batches_at s_closed 2) = false) by (vm_compute; reflexivity).
  assert (Ho : msg_sender (tx 1 400 0) = owner s_closed) by (vm_compute; reflexivity).
  assert (Hp : paused s_closed = false) by (vm_compute; reflexivity).
  destruct (batch_life_cycle s_closed 1 (tx 1 400 0) (tx 1 500 0, OpenBatch 1)
              [(tx 1 500 0, OpenBatch 1); (tx 1 501 0, Unpause);
               (tx 2 502 0, SubmitData 1 1 1)])
    as (Hopen & _ & Hclose & _ & _ & Hstay).
  destruct (batch_life_cycle s_closed 2 (tx 1 400 0) (tx 1 500 0, OpenBatch 1) [])
    as (_ & Habsent & _).
  split; [exact Hph |].
  split; [exact (proj2 (Hopen Hex) Ho Hp) |].
  split; [exact (proj2 (Hclose Hex Hcl) Ho Hp) |].
  split; [exact (proj2 (Habsent Hno) Ho Hp) |].
  exact (Hstay Hph).
Defined.

(** C7 at a concrete run: providers 2 and 3 submit 100 and 50, provider 2
    submits 7 again after its cooldown; the total decrypts to 157 while
    provider 2's record holds the encryption of 7. *)
Lemma batch_totals_accumulate_witness :
  let s := run (deployed deployer)
               (setup ++ two_submissions ++ [(tx 2 200 0, SubmitData 1 7 1)]) in
  decrypt (batchEncryptedValue_at s 1) = 157
  /\ decrypt (batchEncryptedShares_at s 1) = 16
  /\ providerEncryptedValue_at s 1 2 = trivial 7.
Proof.
  cbv zeta.
  destruct (@batch_totals_accumulate fhevm decrypt deployer
              (setup ++ two_submissions ++ [(tx 2 200 0, SubmitData 1 7 1)]) 1 2
              reference_decrypt_range eq_refl reference_decrypt_trivial
              (fun x y => reference_decrypt_trivial (decrypt x + decrypt y)))
    as (_ & _ & Hv & Hs & Hp & _).
  split; [rewrite Hv; vm_compute; reflexivity |].
  split; [rewrite Hs; vm_compute; reflexivity |].
  rewrite Hp. vm_compute. reflexivity.
Defined.

(** C8 at a concrete run: batch 1 is closed, the owner's first request
    for it succeeds. *)
Lemma requestBatchDecryption_any_existing_batch_witness :
  closed (batches_at s_closed 1) = true
  /\ succeeded (transact (requestBatchDecryption (tx 1 200 7) 1) s_closed) = true
  /\ transact (requestBatchDecryption (tx 1 200 7) 2) s_closed
     = Reverted BatchDoesNotExist.
Proof.
  assert (Hwf : tx_wf (tx 1 200 7)) by (split; vm_compute; discriminate).
  assert (Ho : msg_sender (tx 1 200 7) = owner s_closed) by (vm_compute; reflexivity).
  assert (Hp : paused s_closed = false) by (vm_compute; reflexivity).
  assert (Hcd : lastDecryptionRequestTime_at s_closed (msg_sender (tx 1 200 7))
                + cooldownSeconds s_closed <= block_timestamp (tx 1 200 7))
    by (vm_compute; discriminate).
  assert (Hex : exists_ (batches_at s_closed 1) = true) by (vm_compute; reflexivity).
  assert (Hno : exists_ (batches_at s_closed 2) = false) by (vm_compute; reflexivity).
  destruct (requestBatchDecryption_any_existing_batch (tx 1 200 7) 1 s_closed
              Hwf Ho Hp Hcd) as (Hsucc & _).
  destruct (requestBatchDecryption_any_existing_batch (tx 1 200 7) 2 s_closed
              Hwf Ho Hp Hcd) as (_ & Hfail & _).
  split; [vm_compute; reflexivity |].
  split; [exact (proj1 (Hsucc Hex)) | exact (Hfail Hno)].
Defined.

(** C9 at a concrete run: a stranger's [openBatch] reverts on the
    untouched machine, and the accepted callback for request 7 found the
    context unprocessed, the hash equal and the proof valid. *)
Lemma entry_points_atomic_witness :
  body (tx 5 400 0) (OpenBatch 2) {| storage := s_requested; effects := [] |}
    = Abort NotOwner {| storage := s_requested; effects := [] |}
  /\ processed (decryptionContexts_at s_requested 7) = false
  /\ processed (decryptionContexts_at s_completed 7) = true.
Proof.
  assert (Hab : body (tx 5 400 0) (OpenBatch 2) {| storage := s_requested; effects := [] |}
                = Abort NotOwner {| storage := s_requested; effects := [] |})
    by (vm_compute; reflexivity).
  assert (Hok : succeeded (transact (myCallback 7 cleartexts_150_15 proof_7) s_requested)
                = true) by (vm_compute; reflexivity).
  destruct (entry_points_atomic (tx 5 400 0) (OpenBatch 2) s_requested
              {| storage := s_requested; effects := [] |}
              {| storage := s_requested; effects := [] |}
              NotOwner 7 cleartexts_150_15 proof_7)
    as (Hclean & _ & _ & Hcb).
  pose proof (Hclean Hab) as _.
  destruct (Hcb Hok) as (Hunp & _ & _ & Hset).
  split; [exact Hab |]. split; [exact Hunp |].
  unfold s_completed, exec. cbn [fst snd body]. now rewrite Hset.
Defined.

(** C10 at a concrete run: no request was issued yet when a callback for
    id 7 arrives with the proof the reference check accepts. *)
Lemma callback_without_request_rejected_witness :
  FHE_checkSignatures 7 cleartexts_150_15 proof_7 = true
  /\ transact (myCallback 7 cleartexts_150_15 proof_7)
              (run (deployed deployer) (setup ++ two_submissions))
     = Reverted StateMismatch.
Proof.
  split; [vm_compute; reflexivity |].
  apply (callback_without_request_rejected deployer (setup ++ two_submissions) 7
           cleartexts_150_15 proof_7).
  - intros a b. apply reference_hash_nonzero.
  - repeat constructor.
Defined.

(** * Further properties of the contract *)

(** ** Ownership and administration *)

Section Administration.
Context `{Fhevm}.

Lemma transferOwnership_outcome (tx : Tx) (newOwner : Z) (s : State) :
  transact (transferOwnership tx newOwner) s =
  if negb (msg_sender tx =? owner s) then Reverted NotOwner
  else Success (set_owner newOwner s)
               [Emit (EvOwnershipTransferred (owner s) newOwner)].
Proof. paths. Qed.

Lemma addProvider_outcome (tx : Tx) (p : Z) (s : State) :
  transact (addProvider tx p) s =
  if negb (msg_sender tx =? owner s) then Reverted NotOwner
  else Success (set_isProvider (<[p := true]> (isProvider s)) s)
               [Emit (EvProviderAdded p)].
Proof. paths. Qed.

Lemma removeProvider_outcome (tx : Tx) (p : Z) (s : State) :
  transact (removeProvider tx p) s =
  if negb (msg_sender tx =? owner s) then Reverted NotOwner
  else Success (set_isProvider (<[p := false]> (isProvider s)) s)
               [Emit (EvProviderRemoved p)].
Proof. paths. Qed.

Lemma setCooldownSeconds_outcome (tx : Tx) (n : Z) (s : State) :
  transact (setCooldownSeconds tx n) s =
  if negb (msg_sender tx =? owner s) then Reverted NotOwner
  else Success (set_cooldownSeconds n s)
               [Emit (EvCooldownSecondsSet (cooldownSeconds s) n)].
Proof. paths. Qed.

Lemma unpause_outcome (tx : Tx) (s : State) :
  transact (unpause tx) s =
  if negb (msg_sender tx =? owner s) then Reverted NotOwner
  else Success (set_paused false s) [Emit (EvUnpaused (msg_sender tx))].
Proof. paths. Qed.

(** [onlyOwner] runs first in every function that carries it. *)
Lemma onlyOwner_rejects (tx : Tx) (c : Call) (s : State) :
  has_onlyOwner c = true ->
  (msg_sender tx =? owner s) = false ->
  transact (body tx c) s = Reverted NotOwner.
Proof.
  intros Hc Hne. destruct c; try discriminate Hc; cbn [body].
  - now rewrite transferOwnership_outcome, Hne.
  - now rewrite addProvider_outcome, Hne.
  - now rewrite removeProvider_outcome, Hne.
  - now rewrite setCooldownSeconds_outcome, Hne.
  - now rewrite pause_outcome, Hne.
  - now rewrite unpause_outcome, Hne.
  - now rewrite openBatch_outcome, Hne.
  - now rewrite closeBatch_outcome, Hne.
  - rewrite requestBatchDecryption_outcome. cbv zeta. now rewrite Hne.
Qed.

Lemma onlyOwner_passes (tx : Tx) (c : Call) (s : State) :
  (msg_sender tx =? owner s) = true ->
  transact (body tx c) s <> Reverted NotOwner.
Proof.
  intros Ho. destruct c; cbn [body].
  - now rewrite transferOwnership_outcome, Ho.
  - now rewrite addProvider_outcome, Ho.
  - now rewrite removeProvider_outcome, Ho.
  - now rewrite setCooldownSeconds_outcome, Ho.
  - rewrite pause_outcome, Ho. now destruct (paused s).
  - now rewrite unpause_outcome, Ho.
  - rewrite openBatch_outcome, Ho. now repeat case_match.
  - rewrite closeBatch_outcome, Ho. now repeat case_match.
  - rewrite submitData_outcome. cbv zeta. now repeat case_match.
  - rewrite requestBatchDecryption_outcome. cbv zeta. rewrite Ho.
    now repeat case_match.
  - rewrite myCallback_outcome. cbv zeta. now repeat case_match.
Qed.

(** X1.  [NotOwner] is exactly the answer to a stranger: a call to any
    function that carries [onlyOwner] reverts with [NotOwner] if and only
    if the sender is not the owner, whatever the rest of the storage
    (paused or not, batch present or not); [submitData] and the callback
    never revert with [NotOwner]. *)
Theorem notOwner_iff_stranger (tx : Tx) (c : Call) (s : State) :
  transact (body tx c) s = Reverted NotOwner
  <-> has_onlyOwner c = true /\ msg_sender tx <> owner s.
Proof.
  split.
  - intros Hr. destruct (has_onlyOwner c) eqn:Hc.
    + split; [reflexivity |]. intros Ho. apply Z.eqb_eq in Ho.
      exact (onlyOwner_passes tx c s Ho Hr).
    + exfalso. destruct c; try discriminate Hc; cbn [body] in Hr.
      * rewrite submitData_outcome in Hr. cbv zeta in Hr.
        revert Hr. now repeat case_match.
      * rewrite myCallback_outcome in Hr. cbv zeta in Hr.
        revert Hr. now repeat case_match.
  - intros [Hc Hne]. apply onlyOwner_rejects; [exact Hc |].
    now apply Z.eqb_neq.
Qed.

(** X2.  The administrative calls (transferOwnership, addProvider,
    removeProvider, setCooldownSeconds, unpause) have no guard but
    [onlyOwner]: each succeeds exactly when the sender is the owner,
    paused or not, and whatever its argument (no zero-address check, no
    bound on the cooldown, no test of the current membership or pause
    state). *)
Theorem admin_succeeds_iff_owner (tx : Tx) (c : Call) (s : State) :
  is_admin c = true ->
  succeeded (transact (body tx c) s) = (msg_sender tx =? owner s).
Proof.
  intros Hc. destruct c; try discriminate Hc; cbn [body].
  - rewrite transferOwnership_outcome. now destruct (_ =? _).
  - rewrite addProvider_outcome. now destruct (_ =? _).
  - rewrite removeProvider_outcome. now destruct (_ =? _).
  - rewrite setCooldownSeconds_outcome. now destruct (_ =? _).
  - rewrite unpause_outcome. now destruct (_ =? _).
Qed.

(** X3.  A successful [transferOwnership] hands the contract over at
    once and exclusively: the new owner is the argument, nothing else in
    storage changes, the event names both owners, and from then on every
    [onlyOwner] function rejects the previous owner (unless it named
    itself) and every other address but the new owner. *)
Theorem transferOwnership_hands_over
    (tx tx' : Tx) (newOwner : Z) (c : Call) (s s' : State) (fx : list Effect) :
  transact (transferOwnership tx newOwner) s = Success s' fx ->
  msg_sender tx = owner s
  /\ s' = set_owner newOwner s
  /\ fx = [Emit (EvOwnershipTransferred (msg_sender tx) newOwner)]
  /\ (has_onlyOwner c = true -> msg_sender tx' <> newOwner ->
      transact (body tx' c) s' = Reverted NotOwner)
  /\ (msg_sender tx' = newOwner ->
      transact (body tx' c) s' <> Reverted NotOwner).
Proof.
  rewrite transferOwnership_outcome.
  destruct (msg_sender tx =? owner s) eqn:Ho; cbn [negb]; [| discriminate].
  apply Z.eqb_eq in Ho. intros [= <- <-].
  split; [exact Ho |]. split; [reflexivity |]. split; [now rewrite Ho |].
  split.
  - intros Hc Hne. apply onlyOwner_rejects; [exact Hc |].
    now apply Z.eqb_neq.
  - intros Hn. apply onlyOwner_passes. now apply Z.eqb_eq.
Qed.

(** X4.  The provider list is a set toggled by the owner: addProvider
    makes exactly [p] a provider and removeProvider makes exactly [p] a
    non-provider, leaving every other address as it was; both succeed and
    log their event whether or not the membership changes, and repeating
    addProvider leaves the storage as after the first. *)
Theorem provider_registry (tx tx' : Tx) (p q : Z) (s : State) :
  msg_sender tx = owner s ->
  msg_sender tx' = owner s ->
  isProvider_at (exec s (tx, AddProvider p)) q
    = (if q =? p then true else isProvider_at s q)
  /\ isProvider_at (exec s (tx, RemoveProvider p)) q
    = (if q =? p then false else isProvider_at s q)
  /\ effects_of (transact (addProvider tx p) s) = [Emit (EvProviderAdded p)]
  /\ effects_of (transact (removeProvider tx p) s) = [Emit (EvProviderRemoved p)]
  /\ exec (exec s (tx, AddProvider p)) (tx', AddProvider p)
     = exec s (tx, AddProvider p)
  /\ isProvider_at (exec (exec s (tx, AddProvider p)) (tx', RemoveProvider p)) p
     = false.
Proof.
  intros Ho Ho'. apply Z.eqb_eq in Ho, Ho'.
  assert (Hadd : exec s (tx, AddProvider p)
                 = set_isProvider (<[p := true]> (isProvider s)) s).
  { unfold exec. cbn [fst snd body]. now rewrite addProvider_outcome, Ho. }
  assert (Hrem : exec s (tx, RemoveProvider p)
                 = set_isProvider (<[p := false]> (isProvider s)) s).
  { unfold exec. cbn [fst snd body]. now rewrite removeProvider_outcome, Ho. }
  rewrite Hadd, Hrem, addProvider_outcome, removeProvider_outcome, Ho.
  cbn [negb effects_of].
  unfold exec. cbn [fst snd body].
  rewrite addProvider_outcome, removeProvider_outcome.
  cbn [owner set_isProvider]. rewrite Ho'. cbn [negb state_after].
  unfold isProvider_at. cbn [isProvider set_isProvider].
  split; [| split; [| split; [| split; [| split]]]]; try reflexivity.
  - destruct (q =? p) eqn:Hq.
    + apply Z.eqb_eq in Hq. subst q. now rewrite mload_insert.
    + apply Z.eqb_neq in Hq. now rewrite mload_insert_ne.
  - destruct (q =? p) eqn:Hq.
    + apply Z.eqb_eq in Hq. subst q. now rewrite mload_insert.
    + apply Z.eqb_neq in Hq. now rewrite mload_insert_ne.
  - now rewrite insert_insert_eq.
  - now rewrite mload_insert.
Qed.
End Administration.

(** ** Removal, pause and cooldown in sequence *)

Section Sequences.
Context `{Fhevm}.

(** What [submitData] leaves alone, accepted or not. *)
Lemma submitData_frame (tx : Tx) (id value shares : Z) (s : State) :
  let s' := state_after s (transact (submitData tx id value shares) s) in
  owner s' = owner s /\ isProvider s' = isProvider s
  /\ cooldownSeconds s' = cooldownSeconds s /\ paused s' = paused s
  /\ batches s' = batches s /\ decryptionContexts s' = decryptionContexts s
  /\ lastDecryptionRequestTime s' = lastDecryptionRequestTime s.
Proof. cbv zeta. paths; repeat split; congruence. Qed.

(** X5.  removeProvider shuts the address out without touching the
    ledger: every later [submitData] by the removed address reverts with
    [NotProvider], while its per-batch records, the batch totals, the
    global totals and its cooldown timestamp stay as they were. *)
Theorem removed_provider_is_shut_out
    (tx tx' : Tx) (p id value shares : Z) (s : State) :
  msg_sender tx = owner s ->
  msg_sender tx' = p ->
  let s' := exec s (tx, RemoveProvider p) in
  transact (submitData tx' id value shares) s' = Reverted NotProvider
  /\ providerEncryptedValue s' = providerEncryptedValue s
  /\ providerEncryptedShares s' = providerEncryptedShares s
  /\ batchEncryptedValue s' = batchEncryptedValue s
  /\ batchEncryptedShares s' = batchEncryptedShares s
  /\ totalEncryptedValue s' = totalEncryptedValue s
  /\ totalEncryptedShares s' = totalEncryptedShares s
  /\ lastSubmissionTime s' = lastSubmissionTime s.
Proof.
  intros Ho Hp. apply Z.eqb_eq in Ho. cbv zeta.
  unfold exec. cbn [fst snd body]. rewrite removeProvider_outcome, Ho.
  cbn [negb state_after]. split; [| repeat split].
  rewrite submitData_outcome. cbv zeta.
  unfold isProvider_at. cbn [isProvider set_isProvider].
  now rewrite Hp, mload_insert.
Qed.

Lemma set_paused_round_trip (s : State) :
  paused s = false -> set_paused false (set_paused true s) = s.
Proof. destruct s. cbn. now intros ->. Qed.

Lemma set_paused_same (s : State) : set_paused (paused s) s = s.
Proof. now destruct s. Qed.

(** X6.  For the owner of a contract that is not paused: pause sets the
    flag, a second pause reverts with [Paused], and unpause brings the
    storage back exactly as it was before the pause.  unpause on a
    contract that is not paused also succeeds, changes nothing and still
    logs [Unpaused]. *)
Theorem pause_unpause_round_trip (tx tx' : Tx) (s : State) :
  msg_sender tx = owner s ->
  msg_sender tx' = owner s ->
  paused s = false ->
  paused (exec s (tx, Pause)) = true
  /\ transact (pause tx') (exec s (tx, Pause)) = Reverted Paused
  /\ exec (exec s (tx, Pause)) (tx', Unpause) = s
  /\ transact (unpause tx') s = Success s [Emit (EvUnpaused (msg_sender tx'))].
Proof.
  intros Ho Ho' Hp. apply Z.eqb_eq in Ho, Ho'.
  assert (Hpause : exec s (tx, Pause) = set_paused true s).
  { unfold exec. cbn [fst snd body]. now rewrite pause_outcome, Ho, Hp. }
  rewrite Hpause. split; [reflexivity |]. split; [| split].
  - rewrite pause_outcome. cbn [owner paused set_paused]. now rewrite Ho'.
  - unfold exec. cbn [fst snd body]. rewrite unpause_outcome.
    cbn [owner set_paused]. rewrite Ho'. cbn [negb state_after].
    now apply set_paused_round_trip.
  - rewrite unpause_outcome, Ho'. cbn [negb].
    f_equal. rewrite <- Hp. apply set_paused_same.
Qed.

(** X7.  The cooldown window of a provider, which spans all batches:
    after an accepted [submitData] at time [t], a further [submitData] by
    the same sender, to whatever batch id, reverts with [CooldownActive]
    at every time before [t + cooldownSeconds] (as long as that sum fits
    a [uint256]); to the same batch it is accepted at every time from
    [t + cooldownSeconds] on, so with a cooldown of 0 it is accepted
    again in the same block. *)
Theorem submission_cooldown_window
    (tx tx' : Tx) (id id' value shares value' shares' : Z) (s s' : State)
    (fx : list Effect) :
  transact (submitData tx id value shares) s = Success s' fx ->
  msg_sender tx' = msg_sender tx ->
  tx_wf tx' ->
  let limit := block_timestamp tx + cooldownSeconds s in
  (block_timestamp tx' < limit -> limit <= MAX_UINT256 ->
   transact (submitData tx' id' value' shares') s' = Reverted CooldownActive)
  /\ (limit <= block_timestamp tx' ->
      succeeded (transact (submitData tx' id value' shares') s') = true).
Proof.
  intros Hok Hsender [Hlo Hhi] limit.
  pose proof (submitData_frame tx id value shares s) as Hframe.
  cbv zeta in Hframe. rewrite Hok in Hframe. cbn [state_after] in Hframe.
  destruct Hframe as (_ & Hprov & Hcd & Hpaused & Hbatches & _ & _).
  pose proof (submitData_accepted _ _ _ _ _ _ _ Hok) as (Hlast & _).
  assert (Hguards : isProvider_at s (msg_sender tx) = true /\ paused s = false
                    /\ exists_ (batches_at s id) = true
                    /\ closed (batches_at s id) = false).
  { revert Hok. rewrite submitData_outcome. cbv zeta.
    destruct (isProvider_at s (msg_sender tx)); [| discriminate].
    destruct (paused s); [discriminate |].
    destruct (_ <=? MAX_UINT256); [| discriminate].
    destruct (_ <? _); [discriminate |].
    destruct (exists_ (batches_at s id)); [| discriminate].
    destruct (closed (batches_at s id)); [discriminate |]. now intros _. }
  destruct Hguards as (Gp & Gpa & Gex & Gcl).
  assert (Hlim : lastSubmissionTime_at s' (msg_sender tx') + cooldownSeconds s' = limit).
  { unfold lastSubmissionTime_at. rewrite Hlast, Hsender, mload_insert, Hcd.
    reflexivity. }
  split.
  - intros Hlt Hfit. rewrite submitData_outcome. cbv zeta. rewrite Hlim.
    unfold isProvider_at in *. rewrite Hprov, Hpaused, Hsender, Gp, Gpa.
    cbn [negb].
    replace (limit <=? MAX_UINT256) with true by (symmetry; now apply Z.leb_le).
    cbn [negb].
    now replace (block_timestamp tx' <? limit) with true
      by (symmetry; now apply Z.ltb_lt).
  - intros Hge. rewrite submitData_outcome. cbv zeta. rewrite Hlim.
    unfold isProvider_at, batches_at in *.
    rewrite Hprov, Hpaused, Hbatches, Hsender, Gp, Gpa. cbn [negb].
    replace (limit <=? MAX_UINT256) with true by (symmetry; apply Z.leb_le; lia).
    replace (block_timestamp tx' <? limit) with false
      by (symmetry; now apply Z.ltb_ge).
    cbn [negb]. now rewrite Gex, Gcl.
Qed.

(** X8.  The cooldown of decryption requests is per caller, not per
    batch: after a successful request at time [t], a request by the same
    owner for any batch reverts with [CooldownActive] at every time before
    [t + cooldownSeconds] (as long as that sum fits a [uint256]), even
    for a batch that was never requested before. *)
Theorem request_cooldown_is_per_caller
    (tx tx' : Tx) (id id' : Z) (s s' : State) (fx : list Effect) :
  transact (requestBatchDecryption tx id) s = Success s' fx ->
  msg_sender tx' = msg_sender tx ->
  block_timestamp tx' < block_timestamp tx + cooldownSeconds s ->
  block_timestamp tx + cooldownSeconds s <= MAX_UINT256 ->
  transact (requestBatchDecryption tx' id') s' = Reverted CooldownActive.
Proof.
  rewrite requestBatchDecryption_outcome. cbv zeta.
  destruct (msg_sender tx =? owner s) eqn:Ho; cbn [negb]; [| discriminate].
  destruct (paused s) eqn:Hp; [discriminate |].
  destruct (_ <=? MAX_UINT256); cbn [negb]; [| discriminate].
  destruct (_ <? _); [discriminate |].
  destruct (exists_ (batches_at s id)); cbn [negb]; [| discriminate].
  intros [= <- <-] Hsender Hlt Hfit.
  rewrite requestBatchDecryption_outcome. cbv zeta.
  unfold lastDecryptionRequestTime_at.
  cbn [owner paused cooldownSeconds lastDecryptionRequestTime
       set_decryptionContexts set_lastDecryptionRequestTime].
  rewrite Hsender, Ho, Hp, mload_insert. cbn [negb].
  replace (_ <=? MAX_UINT256) with true by (symmetry; now apply Z.leb_le).
  cbn [negb].
  now replace (block_timestamp tx' <? _) with true by (symmetry; now apply Z.ltb_lt).
Qed.
End Sequences.

(** ** Deployment and the global totals *)

Section GlobalTotals.
Context `{Fhevm}.

Lemma deployed_fields (d : Tx) :
  owner (deployed d) = msg_sender d
  /\ cooldownSeconds (deployed d) = 60
  /\ paused (deployed d) = false
  /\ isProvider (deployed d) = ∅
  /\ batches (deployed d) = ∅
  /\ lastSubmissionTime (deployed d) = ∅
  /\ lastDecryptionRequestTime (deployed d) = ∅
  /\ batchEncryptedValue (deployed d) = ∅
  /\ batchEncryptedShares (deployed d) = ∅
  /\ providerEncryptedValue (deployed d) = ∅
  /\ providerEncryptedShares (deployed d) = ∅
  /\ totalEncryptedValue (deployed d)
     = (if FHE_isInitialized 0 then 0 else FHE_asEuint32 0)
  /\ totalEncryptedShares (deployed d)
     = (if FHE_isInitialized 0 then 0 else FHE_asEuint32 0).
Proof. unfold deployed, zero_storage. paths; repeat split. Qed.

(** X9.  Deployment cannot fail and logs no event.  It leaves the sender
    as owner, a cooldown of 60 seconds, the contract not paused, both
    global totals set (to the trivial encryption of 0 unless the library
    already counts the zero handle as initialised), and everything else
    empty: no batch exists and nobody is a provider, not even the owner,
    so every [submitData] reverts with [NotProvider] and the owner's
    [closeBatch] and [requestBatchDecryption] find no batch. *)
Theorem deployment_state (d tx : Tx) (id value shares : Z) :
  let s := deployed d in
  succeeded (transact (constructor d) zero_storage) = true
  /\ events_in (effects_of (transact (constructor d) zero_storage)) = []
  /\ owner s = msg_sender d
  /\ cooldownSeconds s = 60
  /\ paused s = false
  /\ totalEncryptedValue s = (if FHE_isInitialized 0 then 0 else FHE_asEuint32 0)
  /\ totalEncryptedShares s = (if FHE_isInitialized 0 then 0 else FHE_asEuint32 0)
  /\ isProvider_at s (msg_sender tx) = false
  /\ phase s id = Nonexistent
  /\ decryptionContexts s = ∅
  /\ transact (submitData tx id value shares) s = Reverted NotProvider
  /\ (msg_sender tx = msg_sender d ->
      transact (closeBatch tx id) s = Reverted BatchDoesNotExist).
Proof.
  cbv zeta.
  destruct (deployed_fields d)
    as (Ho & Hcd & Hp & Hprov & Hb & _ & _ & _ & _ & _ & _ & Htv & Hts).
  assert (Hnp : isProvider_at (deployed d) (msg_sender tx) = false).
  { unfold isProvider_at, mload. now rewrite Hprov, lookup_empty. }
  assert (Hnb : batches_at (deployed d) id = Batch_default).
  { unfold batches_at, mload. now rewrite Hb, lookup_empty. }
  split; [paths |]. split; [paths |].
  split; [exact Ho |]. split; [exact Hcd |]. split; [exact Hp |].
  split; [exact Htv |]. split; [exact Hts |]. split; [exact Hnp |].
  split; [unfold phase; now rewrite Hnb |].
  split; [apply deployed_no_context |].
  split.
  - rewrite submitData_outcome. cbv zeta. now rewrite Hnp.
  - intros Hs. rewrite closeBatch_outcome, Ho, Hs, Z.eqb_refl, Hp, Hnb. reflexivity.
Qed.

(** X10.  [_initIfNeeded] is idempotent and never overwrites: it cannot
    revert; afterwards both global totals are initialised (given that the
    trivial encryption of 0 is); a total that was initialised before is
    kept as it was; and running it again, or running it on totals that
    are both initialised, does nothing at all, not even a call to the
    library. *)
Theorem initIfNeeded_idempotent (m : Machine) :
  FHE_isInitialized (FHE_asEuint32 0) = true ->
  exists m1,
    _initIfNeeded m = Done tt m1
    /\ FHE_isInitialized (totalEncryptedValue (storage m1)) = true
    /\ FHE_isInitialized (totalEncryptedShares (storage m1)) = true
    /\ (FHE_isInitialized (totalEncryptedValue (storage m)) = true ->
        totalEncryptedValue (storage m1) = totalEncryptedValue (storage m))
    /\ (FHE_isInitialized (totalEncryptedShares (storage m)) = true ->
        totalEncryptedShares (storage m1) = totalEncryptedShares (storage m))
    /\ (FHE_isInitialized (totalEncryptedValue (storage m)) = true ->
        FHE_isInitialized (totalEncryptedShares (storage m)) = true ->
        m1 = m)
    /\ _initIfNeeded m1 = Done tt m1.
Proof.
  intros Hz. destruct m as [s fx]. unfold_body.
  destruct (FHE_isInitialized (totalEncryptedValue s)) eqn:Hv;
    destruct (FHE_isInitialized (totalEncryptedShares s)) eqn:Hs;
    unfold_body; rewrite ?Hs; unfold_body;
    eexists; (split; [reflexivity |]); unfold_body;
    repeat split; intros;
    repeat (progress (rewrite ?Hz, ?Hv, ?Hs; unfold_body));
    try reflexivity; try congruence.
Qed.

Lemma exec_totals (s : State) (tc : Tx * Call) :
  totalEncryptedValue (exec s tc) =
    match snd tc with
    | SubmitData _ value _ =>
        if succeeded (transact (body (fst tc) (snd tc)) s)
        then FHE_add (if FHE_isInitialized (totalEncryptedValue s)
                      then totalEncryptedValue s else FHE_asEuint32 0)
                     (FHE_asEuint32 value)
        else totalEncryptedValue s
    | _ => totalEncryptedValue s
    end
  /\ totalEncryptedShares (exec s tc) =
    match snd tc with
    | SubmitData _ _ shares =>
        if succeeded (transact (body (fst tc) (snd tc)) s)
        then FHE_add (if FHE_isInitialized (totalEncryptedShares s)
                      then totalEncryptedShares s else FHE_asEuint32 0)
                     (FHE_asEuint32 shares)
        else totalEncryptedShares s
    | _ => totalEncryptedShares s
    end.
Proof. destruct tc as [tx []]; paths; split; congruence. Qed.

Section InitialisedHandles.
Hypothesis trivial_initialised : FHE_isInitialized (FHE_asEuint32 0) = true.
Hypothesis add_initialised : forall a b, FHE_isInitialized (FHE_add a b) = true.

Lemma deployed_totals_initialised (d : Tx) :
  FHE_isInitialized (totalEncryptedValue (deployed d)) = true
  /\ FHE_isInitialized (totalEncryptedShares (deployed d)) = true.
Proof.
  destruct (deployed_fields d)
    as (_ & _ & _ & _ & _ & _ & _ & _ & _ & _ & _ & -> & ->).
  now destruct (FHE_isInitialized 0) eqn:Hz.
Qed.

Lemma exec_totals_initialised (s : State) (tc : Tx * Call) :
  FHE_isInitialized (totalEncryptedValue s) = true ->
  FHE_isInitialized (totalEncryptedShares s) = true ->
  FHE_isInitialized (totalEncryptedValue (exec s tc)) = true
  /\ FHE_isInitialized (totalEncryptedShares (exec s tc)) = true.
Proof.
  intros Hv Hs. destruct (exec_totals s tc) as [-> ->].
  destruct (snd tc); try (now split).
  destruct (succeeded _); [| now split].
  split; apply add_initialised.
Qed.

Lemma run_totals_initialised (tcs : list (Tx * Call)) (s : State) :
  FHE_isInitialized (totalEncryptedValue s) = true ->
  FHE_isInitialized (totalEncryptedShares s) = true ->
  FHE_isInitialized (totalEncryptedValue (run s tcs)) = true
  /\ FHE_isInitialized (totalEncryptedShares (run s tcs)) = true.
Proof.
  revert s. induction tcs as [| tc tcs IH]; intros s Hv Hs; [now split |].
  rewrite run_cons. destruct (exec_totals_initialised s tc Hv Hs). now apply IH.
Qed.

Lemma run_totals (tcs : list (Tx * Call)) (s : State) :
  FHE_isInitialized (totalEncryptedValue s) = true ->
  FHE_isInitialized (totalEncryptedShares s) = true ->
  totalEncryptedValue (run s tcs)
    = homomorphic_sum (totalEncryptedValue s) (map fst (all_accepted_submissions s tcs))
  /\ totalEncryptedShares (run s tcs)
    = homomorphic_sum (totalEncryptedShares s) (map snd (all_accepted_submissions s tcs)).
Proof.
  revert s. induction tcs as [| [tx c] tcs IH]; intros s Hv Hs; [now split |].
  rewrite run_cons.
  destruct (exec_totals_initialised s (tx, c) Hv Hs) as [Hv' Hs'].
  destruct (IH _ Hv' Hs') as [-> ->].
  cbn [all_accepted_submissions fst snd].
  rewrite !map_app, !homomorphic_sum_app.
  destruct (exec_totals s (tx, c)) as [-> ->]. cbn [fst snd].
  rewrite Hv, Hs.
  destruct c; try (now split).
  destruct (succeeded _); now split.
Qed.

(** X11.  Given a library whose trivial encryption and addition return
    initialised handles: in every storage reached from deployment both
    global totals are initialised, so the [_initIfNeeded] call inside
    [submitData] never does anything after deployment; an accepted
    [submitData] performs exactly two trivial encryptions, four additions
    and one event, in that order. *)
Theorem global_totals_stay_initialised
    (d tx : Tx) (tcs : list (Tx * Call)) (id value shares : Z) :
  let s := run (deployed d) tcs in
  let r := transact (submitData tx id value shares) s in
  FHE_isInitialized (totalEncryptedValue s) = true
  /\ FHE_isInitialized (totalEncryptedShares s) = true
  /\ (succeeded r = true ->
      effects_of r =
        [FheTrivialEncrypt value; FheTrivialEncrypt shares;
         FheAdd (batchEncryptedValue_at s id) (FHE_asEuint32 value);
         FheAdd (batchEncryptedShares_at s id) (FHE_asEuint32 shares);
         FheAdd (totalEncryptedValue s) (FHE_asEuint32 value);
         FheAdd (totalEncryptedShares s) (FHE_asEuint32 shares);
         Emit (EvDataSubmitted (msg_sender tx) id
                 (FHE_asEuint32 value) (FHE_asEuint32 shares))]).
Proof.
  cbv zeta.
  destruct (deployed_totals_initialised d) as [Hv0 Hs0].
  destruct (run_totals_initialised tcs _ Hv0 Hs0) as [Hv Hs].
  split; [exact Hv |]. split; [exact Hs |].
  destruct (transact (submitData tx id value shares) (run (deployed d) tcs))
    as [s' fx |] eqn:Hr; [| discriminate].
  intros _. apply submitData_accepted in Hr.
  destruct Hr as (_ & _ & _ & _ & _ & _ & _ & ->).
  cbn [effects_of]. now rewrite Hv, Hs.
Qed.

(** X12.  With such a library, along any transactions from deployment
    the global value total is the homomorphic sum of the values of all
    accepted [submitData] calls, whatever their batch, and likewise for
    shares; under a homomorphic reading of the handles that reads the
    unwritten handle as zero they decrypt to the plaintext sums modulo
    2^32. *)
Theorem global_totals_accumulate
    (decrypt : Z -> Z) (d : Tx) (tcs : list (Tx * Call)) :
  (forall h, 0 <= decrypt h < 2 ^ 32) ->
  decrypt 0 = 0 ->
  (forall v, decrypt (FHE_asEuint32 v) = v mod 2 ^ 32) ->
  (forall x y, decrypt (FHE_add x y) = (decrypt x + decrypt y) mod 2 ^ 32) ->
  let s := run (deployed d) tcs in
  let subs := all_accepted_submissions (deployed d) tcs in
  totalEncryptedValue s
    = homomorphic_sum (totalEncryptedValue (deployed d)) (map fst subs)
  /\ totalEncryptedShares s
    = homomorphic_sum (totalEncryptedShares (deployed d)) (map snd subs)
  /\ decrypt (totalEncryptedValue s) = plain_sum (map fst subs) mod 2 ^ 32
  /\ decrypt (totalEncryptedShares s) = plain_sum (map snd subs) mod 2 ^ 32.
Proof.
  intros Hrange Hzero Henc Hadd s subs.
  destruct (deployed_totals_initialised d) as [Hv0 Hs0].
  destruct (run_totals tcs _ Hv0 Hs0) as [Hv Hs]. fold s subs in Hv, Hs.
  assert (Hd0 : decrypt (totalEncryptedValue (deployed d)) = 0
                /\ decrypt (totalEncryptedShares (deployed d)) = 0).
  { destruct (deployed_fields d)
      as (_ & _ & _ & _ & _ & _ & _ & _ & _ & _ & _ & -> & ->).
    destruct (FHE_isInitialized 0); [now split |].
    rewrite Henc. now split. }
  destruct Hd0 as [Hdv Hds].
  split; [exact Hv |]. split; [exact Hs |]. split.
  - rewrite Hv, (decrypt_homomorphic_sum decrypt) by assumption. now rewrite Hdv.
  - rewrite Hs, (decrypt_homomorphic_sum decrypt) by assumption. now rewrite Hds.
Qed.
End InitialisedHandles.
End GlobalTotals.

(** ** Snapshots, closed batches and the ledger *)

Section Ledger.
Context `{Fhevm}.

Lemma requestBatchDecryption_keeps_ledger
    (tx : Tx) (id id' : Z) (s s' : State) (fx : list Effect) :
  transact (requestBatchDecryption tx id) s = Success s' fx ->
  _getCiphertexts s' id' = _getCiphertexts s id'.
Proof.
  rewrite requestBatchDecryption_outcome. cbv zeta.
  repeat (case_match; try discriminate). now intros [= <- <-].
Qed.

Lemma run_ciphertexts_unchanged (tcs : list (Tx * Call)) (s : State) (id : Z) :
  accepted_submissions s tcs id = [] ->
  _getCiphertexts (run s tcs) id = _getCiphertexts s id.
Proof.
  intros Hnone. unfold _getCiphertexts.
  now rewrite run_batchEncryptedValue, run_batchEncryptedShares, Hnone.
Qed.

(** X13.  The positive side of the snapshot check.  After a successful
    request for batch [id], let any transactions follow that are neither
    a callback for the request id nor a request receiving it again, and
    among which no [submitData] to batch [id] is accepted (closing the
    batch, pausing, transferring ownership, changing the cooldown and
    submissions to other batches are all allowed).  Then a callback whose
    proof verifies and whose cleartexts decode is accepted: it logs
    exactly [DecryptionCompleted] with the decoded totals and marks the
    request processed.  This holds whatever was stored under the request
    id before the request. *)
Theorem callback_accepts_unchanged_batch
    (tx0 : Tx) (id : Z) (s0 s1 : State) (fx : list Effect)
    (tcs : list (Tx * Call)) (cleartexts proof : bytes) (totalValue totalShares : Z) :
  transact (requestBatchDecryption tx0 id) s0 = Success s1 fx ->
  Forall (fun tc => issues (next_requestId tx0) tc = false
                    /\ answers (next_requestId tx0) tc = false) tcs ->
  accepted_submissions s1 tcs id = [] ->
  FHE_checkSignatures (next_requestId tx0) cleartexts proof = true ->
  abi_decode_uint32_uint32 cleartexts = Some (totalValue, totalShares) ->
  let r := transact (myCallback (next_requestId tx0) cleartexts proof) (run s1 tcs) in
  succeeded r = true
  /\ effects_of r
     = [Emit (EvDecryptionCompleted (next_requestId tx0) id totalValue totalShares)]
  /\ processed (decryptionContexts_at (state_after (run s1 tcs) r) (next_requestId tx0))
     = true.
Proof.
  intros Hreq Hall Hnone Hsig Hdec r.
  destruct (requestBatchDecryption_context _ _ _ _ _ Hreq) as [Hctx _].
  rewrite <- (run_context_frame _ tcs s1 Hall) in Hctx.
  assert (Hhash : _hashCiphertexts (run s1 tcs) id = _hashCiphertexts s0 id).
  { unfold _hashCiphertexts.
    now rewrite (run_ciphertexts_unchanged _ _ _ Hnone),
                (requestBatchDecryption_keeps_ledger _ _ _ _ _ _ Hreq). }
  subst r. rewrite myCallback_outcome. cbv zeta.
  rewrite Hctx. cbn [processed batchId stateHash].
  rewrite Hhash, Z.eqb_refl, Hsig, Hdec. cbn [negb succeeded effects_of state_after].
  split; [reflexivity |]. split; [reflexivity |].
  unfold decryptionContexts_at. cbn [decryptionContexts set_decryptionContexts].
  now rewrite mload_insert.
Qed.

Lemma submitData_needs_open (tx : Tx) (id value shares : Z) (s : State) :
  succeeded (transact (submitData tx id value shares) s) = true ->
  phase s id = Open.
Proof.
  rewrite submitData_outcome. cbv zeta. unfold phase.
  destruct (isProvider_at s (msg_sender tx)); [| discriminate].
  destruct (paused s); [discriminate |].
  destruct (_ <=? MAX_UINT256); [| discriminate].
  destruct (_ <? _); [discriminate |].
  destruct (exists_ (batches_at s id)); [| discriminate].
  now destruct (closed (batches_at s id)).
Qed.

Lemma accepted_submissions_none (tcs : list (Tx * Call)) (s : State) (id : Z) :
  (forall prefix rest, tcs = prefix ++ rest -> phase (run s prefix) id <> Open) ->
  accepted_submissions s tcs id = [].
Proof.
  revert s. induction tcs as [| tc tcs IH]; intros s Hnever; [reflexivity |].
  cbn [accepted_submissions].
  rewrite IH;
    [| intros prefix rest Heq; apply (Hnever (tc :: prefix) rest); now rewrite Heq].
  rewrite app_nil_r.
  pose proof (Hnever [] (tc :: tcs) eq_refl) as Hnow. cbn in Hnow.
  destruct tc as [tx c]. cbn [fst snd]. destruct c; try reflexivity.
  destruct (id0 =? id) eqn:Hid; [| reflexivity].
  apply Z.eqb_eq in Hid. subst id0. cbn [body andb].
  destruct (succeeded _) eqn:Hok; [| reflexivity].
  now apply submitData_needs_open in Hok.
Qed.

(** In every storage reached from one where closed batches exist, closed
    batches exist. *)
Lemma exec_closed_exists (s : State) (tc : Tx * Call) :
  (forall id, closed (batches_at s id) = true -> exists_ (batches_at s id) = true) ->
  forall id, closed (batches_at (exec s tc) id) = true ->
             exists_ (batches_at (exec s tc) id) = true.
Proof.
  intros Hinv id. unfold batches_at at 1 2. rewrite exec_batches.
  destruct tc as [tx c]. cbn [fst snd].
  destruct c; try apply Hinv.
  - destruct (succeeded _); [| apply Hinv].
    destruct (decide (id0 = id)) as [-> | Hne].
    + now rewrite mload_insert.
    + rewrite !mload_insert_ne by exact Hne. apply Hinv.
  - destruct (succeeded _) eqn:Hok; [| apply Hinv].
    apply closeBatch_accepted in Hok. destruct Hok as [Hex _].
    destruct (decide (id0 = id)) as [-> | Hne].
    + now rewrite !mload_insert.
    + rewrite !mload_insert_ne by exact Hne. apply Hinv.
Qed.

Lemma run_closed_exists (tcs : list (Tx * Call)) (s : State) :
  (forall id, closed (batches_at s id) = true -> exists_ (batches_at s id) = true) ->
  forall id, closed (batches_at (run s tcs) id) = true ->
             exists_ (batches_at (run s tcs) id) = true.
Proof.
  revert s. induction tcs as [| tc tcs IH]; intros s Hinv; [exact Hinv |].
  rewrite run_cons. apply IH. now apply exec_closed_exists.
Qed.

(** X14.  A closed batch is frozen: along any later transactions no
    [submitData] to it is accepted, its two running totals and every
    provider record for it keep their handles, and therefore the hash a
    decryption request commits to never changes again. *)
Theorem closed_batch_is_frozen (s : State) (tcs : list (Tx * Call)) (id a : Z) :
  phase s id = Closed ->
  accepted_submissions s tcs id = []
  /\ batchEncryptedValue_at (run s tcs) id = batchEncryptedValue_at s id
  /\ batchEncryptedShares_at (run s tcs) id = batchEncryptedShares_at s id
  /\ providerEncryptedValue_at (run s tcs) id a = providerEncryptedValue_at s id a
  /\ providerEncryptedShares_at (run s tcs) id a = providerEncryptedShares_at s id a
  /\ _hashCiphertexts (run s tcs) id = _hashCiphertexts s id.
Proof.
  intros Hclosed.
  assert (Hnone : accepted_submissions s tcs id = []).
  { apply accepted_submissions_none. intros prefix rest _.
    destruct (run_phase_kept prefix s id) as [_ Hkeep].
    now rewrite (Hkeep Hclosed). }
  destruct (run_providerEncrypted tcs s id a) as [Hpv Hps].
  rewrite Hnone in Hpv, Hps. cbn in Hpv, Hps.
  split; [exact Hnone |].
  split; [now rewrite run_batchEncryptedValue, Hnone |].
  split; [now rewrite run_batchEncryptedShares, Hnone |].
  split; [exact Hpv |]. split; [exact Hps |].
  unfold _hashCiphertexts. now rewrite (run_ciphertexts_unchanged _ _ _ Hnone).
Qed.

(** X15.  No data without a batch: in every storage reached from
    deployment, an id that was never opened is not closed, accepts no
    submission, and all its handles (the two batch totals and every
    provider record) read as the zero handle. *)
Theorem nonexistent_batch_has_no_data
    (d : Tx) (tcs : list (Tx * Call)) (id a : Z) :
  let s := run (deployed d) tcs in
  exists_ (batches_at s id) = false ->
  closed (batches_at s id) = false
  /\ accepted_submissions (deployed d) tcs id = []
  /\ batchEncryptedValue_at s id = 0
  /\ batchEncryptedShares_at s id = 0
  /\ providerEncryptedValue_at s id a = 0
  /\ providerEncryptedShares_at s id a = 0.
Proof.
  intros s Hno.
  assert (Hnone : accepted_submissions (deployed d) tcs id = []).
  { apply accepted_submissions_none. intros prefix rest -> Hopen.
    subst s. rewrite run_app in Hno.
    destruct (run_phase_kept rest (run (deployed d) prefix) id) as [Hkeep _].
    apply Hkeep; [rewrite Hopen; discriminate |].
    unfold phase. now rewrite Hno. }
  destruct (run_providerEncrypted tcs (deployed d) id a) as [Hpv Hps].
  rewrite Hnone in Hpv, Hps. cbn in Hpv, Hps.
  assert (Hp0 : providerEncryptedValue_at (deployed d) id a = 0
                /\ providerEncryptedShares_at (deployed d) id a = 0).
  { unfold providerEncryptedValue_at, providerEncryptedShares_at, deployed.
    paths; now split. }
  destruct Hp0 as [Hpv0 Hps0].
  destruct (deployed_batch_totals_unwritten d id) as [Hv0 Hs0].
  split.
  { destruct (closed (batches_at s id)) eqn:Hcl; [| reflexivity].
    assert (Hex : exists_ (batches_at s id) = true); [| congruence].
    subst s. apply run_closed_exists; [| exact Hcl].
    intros id'. unfold batches_at, mload.
    destruct (deployed_fields d) as (_ & _ & _ & _ & Hb & _).
    rewrite Hb, lookup_empty. discriminate. }
  split; [exact Hnone |].
  split; [subst s; now rewrite run_batchEncryptedValue, Hnone |].
  split; [subst s; now rewrite run_batchEncryptedShares, Hnone |].
  subst s. split; congruence.
Qed.

(** X19.  A request needs no submission: for a batch that has received
    no accepted submission since deployment, a successful
    [requestBatchDecryption] asks the library to decrypt the two zero
    handles, which were never written, and commits to their hash; no
    check of initialisation stands in the way. *)
Theorem request_on_empty_batch
    (d tx : Tx) (tcs : list (Tx * Call)) (id : Z) :
  let s := run (deployed d) tcs in
  let r := transact (requestBatchDecryption tx id) s in
  accepted_submissions (deployed d) tcs id = [] ->
  succeeded r = true ->
  _getCiphertexts s id = [0; 0]
  /\ effects_of r =
       [FheRequestDecryption [0; 0];
        Emit (EvDecryptionRequested (next_requestId tx) id
                (keccak256 (abi_encode_bytes32s_address [0; 0] this_address)))].
Proof.
  intros s r Hnone Hok.
  assert (Hcts : _getCiphertexts s id = [0; 0]).
  { subst s. rewrite (run_ciphertexts_unchanged _ _ _ Hnone). unfold _getCiphertexts.
    now destruct (deployed_batch_totals_unwritten d id) as [-> ->]. }
  split; [exact Hcts |].
  subst r. revert Hok. rewrite requestBatchDecryption_outcome. cbv zeta.
  repeat (case_match; try discriminate). intros _.
  cbn [effects_of]. unfold _hashCiphertexts. now rewrite Hcts.
Qed.
End Ledger.

(** ** The event log *)

Section EventLog.
Context `{Fhevm}.

Lemma deployed_registry_fields (d : Tx) :
  owner (deployed d) = msg_sender d
  /\ paused (deployed d) = false
  /\ cooldownSeconds (deployed d) = 60
  /\ (forall p, isProvider_at (deployed d) p = false)
  /\ (forall id, phase (deployed d) id = Nonexistent).
Proof.
  destruct (deployed_fields d) as (Ho & Hcd & Hp & Hprov & Hb & _).
  split; [exact Ho |]. split; [exact Hp |]. split; [exact Hcd |]. split.
  - intros p. unfold isProvider_at, mload. now rewrite Hprov, lookup_empty.
  - intros id. unfold phase, batches_at, mload. now rewrite Hb, lookup_empty.
Qed.

Lemma exec_replay_owner (s : State) (tc : Tx * Call) :
  owner (exec s tc)
  = fold_left replay_owner
              (events_in (effects_of (transact (body (fst tc) (snd tc)) s))) (owner s).
Proof. destruct tc as [tx []]; paths. Qed.

Lemma exec_replay_paused (s : State) (tc : Tx * Call) :
  paused (exec s tc)
  = fold_left replay_paused
              (events_in (effects_of (transact (body (fst tc) (snd tc)) s))) (paused s).
Proof. destruct tc as [tx []]; paths. Qed.

Lemma exec_replay_cooldown (s : State) (tc : Tx * Call) :
  cooldownSeconds (exec s tc)
  = fold_left replay_cooldown
              (events_in (effects_of (transact (body (fst tc) (snd tc)) s)))
              (cooldownSeconds s).
Proof. destruct tc as [tx []]; paths. Qed.

Lemma exec_replay_provider (p : Z) (s : State) (tc : Tx * Call) :
  isProvider_at (exec s tc) p
  = fold_left (replay_provider p)
              (events_in (effects_of (transact (body (fst tc) (snd tc)) s)))
              (isProvider_at s p).
Proof.
  destruct tc as [tx c].
  destruct c; try (unfold isProvider_at; paths; fail); cbn [fst snd body exec].
  - unfold exec. cbn [fst snd body]. rewrite addProvider_outcome.
    destruct (msg_sender tx =? owner s); cbn [negb state_after effects_of]; [| reflexivity].
    cbn. unfold isProvider_at. cbn [isProvider set_isProvider].
    destruct (provider =? p) eqn:Hq.
    + apply Z.eqb_eq in Hq. subst. now rewrite mload_insert.
    + apply Z.eqb_neq in Hq. now rewrite mload_insert_ne.
  - unfold exec. cbn [fst snd body]. rewrite removeProvider_outcome.
    destruct (msg_sender tx =? owner s); cbn [negb state_after effects_of]; [| reflexivity].
    cbn. unfold isProvider_at. cbn [isProvider set_isProvider].
    destruct (provider =? p) eqn:Hq.
    + apply Z.eqb_eq in Hq. subst. now rewrite mload_insert.
    + apply Z.eqb_neq in Hq. now rewrite mload_insert_ne.
Qed.

Lemma exec_replay_phase (id : Z) (s : State) (tc : Tx * Call) :
  phase (exec s tc) id
  = fold_left (replay_phase id)
              (events_in (effects_of (transact (body (fst tc) (snd tc)) s)))
              (phase s id).
Proof.
  destruct tc as [tx c].
  pose proof (exec_batches s (tx, c)) as Hb.
  destruct c; cbn [fst snd] in Hb;
    try (rewrite (phase_same _ _ id Hb); generalize (phase s id); intros ph;
         paths; fail);
    clear Hb.
  - unfold exec. cbn [fst snd body]. rewrite openBatch_outcome.
    repeat (case_match; cbn [state_after effects_of]; try reflexivity).
    cbn. rewrite (phase_insert s _ id id0 {| exists_ := true; closed := false |})
      by reflexivity.
    cbn [exists_ closed]. case_decide as Hd.
    + subst. now rewrite Z.eqb_refl.
    + apply Z.eqb_neq in Hd. now rewrite Hd.
  - unfold exec. cbn [fst snd body]. rewrite closeBatch_outcome.
    repeat (case_match; cbn [state_after effects_of]; try reflexivity).
    cbn. rewrite (phase_insert s _ id id0
                    {| exists_ := exists_ (batches_at s id0); closed := true |})
      by reflexivity.
    cbn [exists_ closed].
    match goal with Hex : negb (exists_ _) = false |- _ =>
      apply negb_false_iff in Hex; rewrite Hex end.
    case_decide as Hd.
    + subst. now rewrite Z.eqb_refl.
    + apply Z.eqb_neq in Hd. now rewrite Hd.
Qed.

Lemma event_log_app_fold {A} (f : A -> Event -> A) (s : State) (tc : Tx * Call)
    (tcs : list (Tx * Call)) (a : A) :
  fold_left f (event_log s (tc :: tcs)) a
  = fold_left f (event_log (exec s tc) tcs)
      (fold_left f (events_in (effects_of (transact (body (fst tc) (snd tc)) s))) a).
Proof. cbn [event_log]. apply fold_left_app. Qed.

(** X16.  The event log is a faithful record of the administration and
    of the life cycle: replaying the events of any sequence of
    transactions from deployment, starting from the deployer as owner,
    no provider, not paused, a cooldown of 60 and no batch, gives the
    owner, the membership of every address, the pause flag, the cooldown
    and the phase of every batch id exactly as the storage has them. *)
Theorem event_log_determines_registry
    (d : Tx) (tcs : list (Tx * Call)) (p id : Z) :
  let s := run (deployed d) tcs in
  let log := event_log (deployed d) tcs in
  owner s = fold_left replay_owner log (msg_sender d)
  /\ isProvider_at s p = fold_left (replay_provider p) log false
  /\ paused s = fold_left replay_paused log false
  /\ cooldownSeconds s = fold_left replay_cooldown log 60
  /\ phase s id = fold_left (replay_phase id) log Nonexistent.
Proof.
  cbv zeta.
  assert (Hgen : forall s0,
             owner (run s0 tcs) = fold_left replay_owner (event_log s0 tcs) (owner s0)
             /\ isProvider_at (run s0 tcs) p
                = fold_left (replay_provider p) (event_log s0 tcs) (isProvider_at s0 p)
             /\ paused (run s0 tcs) = fold_left replay_paused (event_log s0 tcs) (paused s0)
             /\ cooldownSeconds (run s0 tcs)
                = fold_left replay_cooldown (event_log s0 tcs) (cooldownSeconds s0)
             /\ phase (run s0 tcs) id
                = fold_left (replay_phase id) (event_log s0 tcs) (phase s0 id)).
  { induction tcs as [| tc tcs IH]; intros s0; [now repeat split |].
    rewrite run_cons, !event_log_app_fold.
    destruct (IH (exec s0 tc)) as (-> & -> & -> & -> & ->).
    now rewrite exec_replay_owner, exec_replay_provider, exec_replay_paused,
                exec_replay_cooldown, exec_replay_phase. }
  destruct (Hgen (deployed d)) as (-> & -> & -> & -> & ->).
  destruct (deployed_registry_fields d) as (-> & -> & -> & Hprov & Hph).
  now rewrite (Hprov p), (Hph id).
Qed.
End EventLog.

(** ** What a completed callback and an accepted submission change *)

Section Footprints.
Context `{Fhevm}.

Lemma be_word_from_nonneg (bs : bytes) (acc : Z) :
  0 <= acc ->
  0 <= fold_left (fun a b => a * 256 + Z.of_N (Byte.to_N b)) bs acc.
Proof.
  revert acc. induction bs as [| b bs IH]; intros acc Hacc; [exact Hacc |].
  cbn [fold_left]. apply IH. lia.
Qed.

Lemma be_word_nonneg (bs : bytes) : 0 <= be_word bs.
Proof. apply be_word_from_nonneg. lia. Qed.

Lemma abi_decode_inv (data : bytes) (a b : Z) :
  abi_decode_uint32_uint32 data = Some (a, b) ->
  (64 <= length data)%nat
  /\ a = be_word (take 32 data) /\ b = be_word (take 32 (drop 32 data))
  /\ 0 <= a <= MAX_UINT32 /\ 0 <= b <= MAX_UINT32.
Proof.
  unfold abi_decode_uint32_uint32.
  destruct (length data <? 64)%nat eqn:Hlen; [discriminate |].
  apply Nat.ltb_ge in Hlen.
  destruct (be_word (take 32 data) <=? MAX_UINT32) eqn:Ha; [| discriminate].
  destruct (be_word (take 32 (drop 32 data)) <=? MAX_UINT32) eqn:Hb; [| discriminate].
  intros [= <- <-]. apply Z.leb_le in Ha, Hb.
  pose proof (be_word_nonneg (take 32 data)).
  pose proof (be_word_nonneg (take 32 (drop 32 data))).
  repeat split; assumption.
Qed.

Lemma abi_decode_ignores_tail (data extra : bytes) :
  (64 <= length data)%nat ->
  abi_decode_uint32_uint32 (data ++ extra) = abi_decode_uint32_uint32 data.
Proof.
  intros Hlen. unfold abi_decode_uint32_uint32.
  rewrite length_app.
  replace (length data + length extra <? 64)%nat with false
    by (symmetry; apply Nat.ltb_ge; lia).
  replace (length data <? 64)%nat with false by (symmetry; apply Nat.ltb_ge; lia).
  rewrite (take_app_le data extra 32) by lia.
  rewrite (drop_app_le data extra 32) by lia.
  rewrite (take_app_le (drop 32 data) extra 32) by (rewrite length_drop; lia).
  reflexivity.
Qed.

(** X17.  What an accepted callback reports and what it keeps: the
    cleartexts are at least 64 bytes long, the two totals of the
    [DecryptionCompleted] event are their first two 32-byte big-endian
    words, each a [uint32], and bytes beyond the first 64 play no part;
    the event is the only effect, and the storage changes in the
    processed flag of this request alone, so the plaintext totals are
    never written to storage. *)
Theorem completion_reports_decoded_words
    (requestId : Z) (cleartexts proof extra : bytes) (s s' : State) (fx : list Effect) :
  transact (myCallback requestId cleartexts proof) s = Success s' fx ->
  let ctx := decryptionContexts_at s requestId in
  let totalValue := be_word (take 32 cleartexts) in
  let totalShares := be_word (take 32 (drop 32 cleartexts)) in
  (64 <= length cleartexts)%nat
  /\ 0 <= totalValue <= MAX_UINT32
  /\ 0 <= totalShares <= MAX_UINT32
  /\ fx = [Emit (EvDecryptionCompleted requestId (batchId ctx) totalValue totalShares)]
  /\ abi_decode_uint32_uint32 (cleartexts ++ extra) = Some (totalValue, totalShares)
  /\ s' = set_decryptionContexts
            (<[requestId := {| batchId := batchId ctx; stateHash := stateHash ctx;
                               processed := true |}]> (decryptionContexts s)) s.
Proof.
  rewrite myCallback_outcome. cbv zeta.
  destruct (processed _); [discriminate |].
  destruct (negb (_ =? _)); [discriminate |].
  destruct (negb (FHE_checkSignatures _ _ _)); [discriminate |].
  destruct (abi_decode_uint32_uint32 cleartexts) as [[tv ts] |] eqn:Hdec;
    [| discriminate].
  intros [= <- <-].
  destruct (abi_decode_inv _ _ _ Hdec) as (Hlen & -> & -> & Hv & Hs).
  split; [exact Hlen |]. split; [exact Hv |]. split; [exact Hs |].
  split; [reflexivity |]. split; [| reflexivity].
  now rewrite abi_decode_ignores_tail.
Qed.

(** X18.  The footprint of an accepted [submitData] to batch [id]: the
    totals of every other batch, the records of every other (batch,
    provider) pair and the cooldown timestamp of every other address are
    untouched, as are the owner, the provider list, the pause flag, the
    cooldown, all batches' flags, all decryption contexts and the
    request timestamps. *)
Theorem submitData_footprint
    (tx : Tx) (id value shares id' a : Z) (s s' : State) (fx : list Effect) :
  transact (submitData tx id value shares) s = Success s' fx ->
  (id' <> id ->
     batchEncryptedValue_at s' id' = batchEncryptedValue_at s id'
     /\ batchEncryptedShares_at s' id' = batchEncryptedShares_at s id')
  /\ ((id', a) <> (id, msg_sender tx) ->
     providerEncryptedValue_at s' id' a = providerEncryptedValue_at s id' a
     /\ providerEncryptedShares_at s' id' a = providerEncryptedShares_at s id' a)
  /\ (a <> msg_sender tx -> lastSubmissionTime_at s' a = lastSubmissionTime_at s a)
  /\ owner s' = owner s /\ isProvider s' = isProvider s
  /\ cooldownSeconds s' = cooldownSeconds s /\ paused s' = paused s
  /\ batches s' = batches s /\ decryptionContexts s' = decryptionContexts s
  /\ lastDecryptionRequestTime s' = lastDecryptionRequestTime s.
Proof.
  intros Hok.
  pose proof (submitData_frame tx id value shares s) as Hframe.
  cbv zeta in Hframe. rewrite Hok in Hframe. cbn [state_after] in Hframe.
  destruct (submitData_accepted _ _ _ _ _ _ _ Hok)
    as (Hl & Hpv & Hps & Hbv & Hbs & _).
  split; [| split; [| split; [| exact Hframe]]].
  - intros Hne. unfold batchEncryptedValue_at, batchEncryptedShares_at.
    rewrite Hbv, Hbs. now rewrite !mload_insert_ne by congruence.
  - intros Hne. unfold providerEncryptedValue_at, providerEncryptedShares_at.
    rewrite Hpv, Hps. now rewrite !mload_insert_ne by congruence.
  - intros Hne. unfold lastSubmissionTime_at. rewrite Hl.
    now rewrite mload_insert_ne by congruence.
Qed.
End Footprints.

(** ** Concrete runs for the further properties *)

Lemma reference_trivial_initialised (v : Z) : FHE_isInitialized (trivial v) = true.
Proof.
  cbn. unfold trivial.
  pose proof (Z.mod_pos_bound v (2 ^ 32) eq_refl).
  apply negb_true_iff, Z.eqb_neq. lia.
Qed.

(** X1 at a concrete run: on the paused contract a stranger's
    [openBatch] is answered with [NotOwner], not [Paused]. *)
Lemma notOwner_iff_stranger_witness :
  paused s_paused = true
  /\ transact (body (tx 5 400 0) (OpenBatch 2)) s_paused = Reverted NotOwner.
Proof.
  split; [vm_compute; reflexivity |].
  destruct (@notOwner_iff_stranger fhevm (tx 5 400 0) (OpenBatch 2) s_paused)
    as [_ Hback].
  apply Hback. split; [reflexivity | vm_compute; discriminate].
Defined.

(** X2 at a concrete run: the owner sets the cooldown to 0 while paused. *)
Lemma admin_succeeds_iff_owner_witness :
  paused s_paused = true
  /\ succeeded (transact (body (tx 1 400 0) (SetCooldownSeconds 0)) s_paused) = true.
Proof.
  split; [vm_compute; reflexivity |].
  rewrite (@admin_succeeds_iff_owner fhevm (tx 1 400 0) (SetCooldownSeconds 0)
             s_paused eq_refl).
  vm_compute. reflexivity.
Defined.

(** X3 at a concrete run: address 1 hands over to address 8 and is then
    refused. *)
Lemma transferOwnership_hands_over_witness :
  transact (body (tx 1 21 0) (OpenBatch 2)) (set_owner 8 s_open) = Reverted NotOwner.
Proof.
  assert (Hok : transact (transferOwnership (tx 1 20 0) 8) s_open
                = Success (set_owner 8 s_open) [Emit (EvOwnershipTransferred 1 8)])
    by (vm_compute; reflexivity).
  destruct (@transferOwnership_hands_over fhevm (tx 1 20 0) (tx 1 21 0) 8 (OpenBatch 2)
              s_open _ _ Hok) as (_ & _ & _ & Hshut & _).
  apply Hshut; [reflexivity | vm_compute; discriminate].
Defined.

(** X4 at a concrete run: provider 3 is removed, provider 2 stays. *)
Lemma provider_registry_witness :
  isProvider_at (exec s_open (tx 1 20 0, RemoveProvider 3)) 3 = false
  /\ isProvider_at (exec s_open (tx 1 20 0, RemoveProvider 3)) 2 = true.
Proof.
  assert (Ho : msg_sender (tx 1 20 0) = owner s_open) by (vm_compute; reflexivity).
  destruct (@provider_registry fhevm (tx 1 20 0) (tx 1 20 0) 3 3 s_open Ho Ho)
    as (_ & H3 & _).
  destruct (@provider_registry fhevm (tx 1 20 0) (tx 1 20 0) 3 2 s_open Ho Ho)
    as (_ & H2 & _).
  split; [rewrite H3 | rewrite H2]; vm_compute; reflexivity.
Defined.

(** X5 at a concrete run: provider 2 is removed after its submission. *)
Lemma removed_provider_is_shut_out_witness :
  transact (submitData (tx 2 500 0) 1 1 1)
           (exec s_submitted (tx 1 300 0, RemoveProvider 2))
  = Reverted NotProvider
  /\ batchEncryptedValue (exec s_submitted (tx 1 300 0, RemoveProvider 2))
     = batchEncryptedValue s_submitted.
Proof.
  assert (Ho : msg_sender (tx 1 300 0) = owner s_submitted) by (vm_compute; reflexivity).
  destruct (@removed_provider_is_shut_out fhevm (tx 1 300 0) (tx 2 500 0) 2 1 1 1
              s_submitted Ho eq_refl) as (Hshut & _ & _ & Hbv & _).
  split; [exact Hshut | exact Hbv].
Defined.

(** X6 at a concrete run: pause and unpause around the pending request. *)
Lemma pause_unpause_round_trip_witness :
  exec (exec s_requested (tx 1 300 0, Pause)) (tx 1 301 0, Unpause) = s_requested.
Proof.
  assert (Ho : msg_sender (tx 1 300 0) = owner s_requested) by (vm_compute; reflexivity).
  assert (Ho' : msg_sender (tx 1 301 0) = owner s_requested) by (vm_compute; reflexivity).
  assert (Hp : paused s_requested = false) by (vm_compute; reflexivity).
  destruct (@pause_unpause_round_trip fhevm (tx 1 300 0) (tx 1 301 0) s_requested
              Ho Ho' Hp) as (_ & _ & Hback & _).
  exact Hback.
Defined.

(** X7 at a concrete run: provider 2 submitted to batch 1 at time 100
    with the cooldown of 60; it is refused at 130, for another batch id
    too, and accepted at 160. *)
Lemma submission_cooldown_window_witness :
  transact (submitData (tx 2 130 0) 2 7 1) (exec s_open (tx 2 100 0, SubmitData 1 100 10))
  = Reverted CooldownActive
  /\ succeeded (transact (submitData (tx 2 160 0) 1 7 1)
                         (exec s_open (tx 2 100 0, SubmitData 1 100 10))) = true.
Proof.
  assert (Hok : transact (submitData (tx 2 100 0) 1 100 10) s_open
                = Success (exec s_open (tx 2 100 0, SubmitData 1 100 10))
                    (effects_of (transact (submitData (tx 2 100 0) 1 100 10) s_open)))
    by (vm_compute; reflexivity).
  assert (Hwf1 : tx_wf (tx 2 130 0)) by (split; vm_compute; discriminate).
  assert (Hwf2 : tx_wf (tx 2 160 0)) by (split; vm_compute; discriminate).
  destruct (@submission_cooldown_window fhevm (tx 2 100 0) (tx 2 130 0) 1 2 100 10 7 1
              s_open _ _ Hok eq_refl Hwf1) as [Hearly _].
  destruct (@submission_cooldown_window fhevm (tx 2 100 0) (tx 2 160 0) 1 1 100 10 7 1
              s_open _ _ Hok eq_refl Hwf2) as [_ Hlate].
  split.
  - apply Hearly; vm_compute; [reflexivity | discriminate].
  - apply Hlate. vm_compute. discriminate.
Defined.

(** X8 at a concrete run: the owner requested batch 1 at time 200 and
    asks for another id at 230. *)
Lemma request_cooldown_is_per_caller_witness :
  transact (requestBatchDecryption (tx 1 230 8) 2) s_requested = Reverted CooldownActive.
Proof.
  assert (Hok : transact (requestBatchDecryption (tx 1 200 7) 1) s_submitted
                = Success s_requested
                    (effects_of (transact (requestBatchDecryption (tx 1 200 7) 1)
                                          s_submitted)))
    by (vm_compute; reflexivity).
  apply (@request_cooldown_is_per_caller fhevm (tx 1 200 7) (tx 1 230 8) 1 2
           s_submitted s_requested _ Hok eq_refl).
  - vm_compute. reflexivity.
  - vm_compute. discriminate.
Defined.

(** X9 at a concrete run: right after deployment the deployer finds no
    batch to close. *)
Lemma deployment_state_witness :
  transact (closeBatch (tx 1 5 0) 1) (deployed deployer) = Reverted BatchDoesNotExist.
Proof.
  destruct (@deployment_state fhevm deployer (tx 1 5 0) 1 0 0)
    as (_ & _ & _ & _ & _ & _ & _ & _ & _ & _ & _ & Hclose).
  apply Hclose. reflexivity.
Defined.

(** X10 at a concrete run: on the all-zero storage the first run sets
    both totals, the second does nothing. *)
Lemma initIfNeeded_idempotent_witness :
  exists m1,
    _initIfNeeded {| storage := zero_storage; effects := [] |} = Done tt m1
    /\ effects m1 = [FheTrivialEncrypt 0; FheTrivialEncrypt 0]
    /\ _initIfNeeded m1 = Done tt m1.
Proof.
  destruct (@initIfNeeded_idempotent fhevm {| storage := zero_storage; effects := [] |}
              (reference_trivial_initialised 0))
    as (m1 & Hrun & _ & _ & _ & _ & _ & Hagain).
  exists m1. split; [exact Hrun |]. split; [| exact Hagain].
  vm_compute in Hrun. injection Hrun as <-. reflexivity.
Defined.

(** X11 at a concrete run: provider 2's first submission performs the
    seven effects and no initialisation. *)
Lemma global_totals_stay_initialised_witness :
  effects_of (transact (submitData (tx 2 100 0) 1 100 10) (run (deployed deployer) setup))
  = [FheTrivialEncrypt 100; FheTrivialEncrypt 10; FheAdd 0 101; FheAdd 0 11;
     FheAdd 1 101; FheAdd 1 11; Emit (EvDataSubmitted 2 1 101 11)].
Proof.
  destruct (@global_totals_stay_initialised fhevm (reference_trivial_initialised 0)
              (fun a b => reference_trivial_initialised (decrypt a + decrypt b))
              deployer (tx 2 100 0) setup 1 100 10) as (_ & _ & Hfx).
  rewrite Hfx by (vm_compute; reflexivity).
  vm_compute. reflexivity.
Defined.

(** X12 at a concrete run: 100 and 50 go to batch 1, 7 to batch 2; the
    global total decrypts to 157. *)
Lemma global_totals_accumulate_witness :
  let s := run (deployed deployer)
               (setup ++ two_submissions
                ++ [(tx 1 150 0, OpenBatch 2); (tx 2 200 0, SubmitData 2 7 1)]) in
  decrypt (totalEncryptedValue s) = 157
  /\ decrypt (batchEncryptedValue_at s 1) = 150
  /\ decrypt (batchEncryptedValue_at s 2) = 7.
Proof.
  cbv zeta.
  destruct (@global_totals_accumulate fhevm (reference_trivial_initialised 0)
              (fun a b => reference_trivial_initialised (decrypt a + decrypt b))
              decrypt deployer
              (setup ++ two_submissions
               ++ [(tx 1 150 0, OpenBatch 2); (tx 2 200 0, SubmitData 2 7 1)])
              reference_decrypt_range eq_refl reference_decrypt_trivial
              (fun x y => reference_decrypt_trivial (decrypt x + decrypt y)))
    as (_ & _ & Hv & _).
  split; [rewrite Hv; vm_compute; reflexivity |].
  split; vm_compute; reflexivity.
Defined.

(** X13 at a concrete run: batch 1 is closed and the contract paused
    between request 7 and its callback. *)
Lemma callback_accepts_unchanged_batch_witness :
  effects_of
    (transact (myCallback 7 cleartexts_150_15 proof_7)
              (run s_requested [(tx 1 300 0, CloseBatch 1); (tx 1 301 0, Pause)]))
  = [Emit (EvDecryptionCompleted 7 1 150 15)].
Proof.
  assert (Hreq : transact (requestBatchDecryption (tx 1 200 7) 1) s_submitted
                 = Success s_requested
                     (effects_of (transact (requestBatchDecryption (tx 1 200 7) 1)
                                           s_submitted)))
    by (vm_compute; reflexivity).
  assert (Hall : Forall (fun tc => issues (next_requestId (tx 1 200 7)) tc = false
                                   /\ answers (next_requestId (tx 1 200 7)) tc = false)
                        [(tx 1 300 0, CloseBatch 1); (tx 1 301 0, Pause)])
    by (repeat constructor).
  assert (Hnone : accepted_submissions s_requested
                    [(tx 1 300 0, CloseBatch 1); (tx 1 301 0, Pause)] 1 = [])
    by (vm_compute; reflexivity).
  assert (Hsig : FHE_checkSignatures (next_requestId (tx 1 200 7))
                   cleartexts_150_15 proof_7 = true) by (vm_compute; reflexivity).
  assert (Hdec : abi_decode_uint32_uint32 cleartexts_150_15 = Some (150, 15))
    by (vm_compute; reflexivity).
  destruct (@callback_accepts_unchanged_batch fhevm (tx 1 200 7) 1 s_submitted
              s_requested _ _ cleartexts_150_15 proof_7 150 15
              Hreq Hall Hnone Hsig Hdec) as (_ & Hfx & _).
  exact Hfx.
Defined.

(** X14 at a concrete run: a submission to the closed batch 1 changes
    nothing. *)
Lemma closed_batch_is_frozen_witness :
  phase s_closed 1 = Closed
  /\ batchEncryptedValue_at (run s_closed [(tx 2 500 0, SubmitData 1 9 9)]) 1
     = batchEncryptedValue_at s_closed 1.
Proof.
  assert (Hph : phase s_closed 1 = Closed) by (vm_compute; reflexivity).
  destruct (@closed_batch_is_frozen fhevm s_closed [(tx 2 500 0, SubmitData 1 9 9)]
              1 2 Hph) as (_ & Hv & _).
  split; [exact Hph | exact Hv].
Defined.

(** X15 at a concrete run: id 2 was never opened. *)
Lemma nonexistent_batch_has_no_data_witness :
  batchEncryptedValue_at (run (deployed deployer) (setup ++ two_submissions)) 2 = 0
  /\ providerEncryptedValue_at (run (deployed deployer) (setup ++ two_submissions)) 2 2 = 0.
Proof.
  assert (Hno : exists_ (batches_at (run (deployed deployer) (setup ++ two_submissions)) 2)
                = false) by (vm_compute; reflexivity).
  destruct (@nonexistent_batch_has_no_data fhevm deployer (setup ++ two_submissions)
              2 2 Hno) as (_ & _ & Hv & _ & Hp & _).
  split; [exact Hv | exact Hp].
Defined.

(** X17 at a concrete run: the accepted callback for request 7. *)
Lemma completion_reports_decoded_words_witness :
  be_word (take 32 cleartexts_150_15) = 150
  /\ effects_of (transact (myCallback 7 cleartexts_150_15 proof_7) s_requested)
     = [Emit (EvDecryptionCompleted 7 1 150 15)]
  /\ abi_decode_uint32_uint32 (cleartexts_150_15 ++ [x01; x02]) = Some (150, 15).
Proof.
  assert (Hok : transact (myCallback 7 cleartexts_150_15 proof_7) s_requested
                = Success s_completed
                    (effects_of (transact (myCallback 7 cleartexts_150_15 proof_7)
                                          s_requested)))
    by (vm_compute; reflexivity).
  destruct (@completion_reports_decoded_words fhevm 7 cleartexts_150_15 proof_7
              [x01; x02] s_requested _ _ Hok) as (_ & _ & _ & Hfx & Htail & _).
  split; [vm_compute; reflexivity |].
  split; [rewrite Hfx; vm_compute; reflexivity |].
  rewrite Htail. vm_compute. reflexivity.
Defined.

(** X18 at a concrete run: provider 3's submission to batch 1 leaves
    provider 2's record alone. *)
Lemma submitData_footprint_witness :
  providerEncryptedValue_at (exec s_submitted (tx 3 400 0, SubmitData 1 9 9)) 1 2
  = providerEncryptedValue_at s_submitted 1 2.
Proof.
  assert (Hok : transact (submitData (tx 3 400 0) 1 9 9) s_submitted
                = Success (exec s_submitted (tx 3 400 0, SubmitData 1 9 9))
                    (effects_of (transact (submitData (tx 3 400 0) 1 9 9) s_submitted)))
    by (vm_compute; reflexivity).
  destruct (@submitData_footprint fhevm (tx 3 400 0) 1 9 9 1 2 s_submitted _ _ Hok)
    as (_ & Hrec & _).
  apply Hrec. vm_compute. discriminate.
Defined.

(** X19 at a concrete run: the owner requests the freshly opened batch 1. *)
Lemma request_on_empty_batch_witness :
  effects_of (transact (requestBatchDecryption (tx 1 200 7) 1)
                       (run (deployed deployer) setup))
  = [FheRequestDecryption [0; 0];
     Emit (EvDecryptionRequested 7 1 (hash (abi_encode_bytes32s_address [0; 0] 4919)))].
Proof.
  destruct (@request_on_empty_batch fhevm deployer (tx 1 200 7) setup 1) as [_ Hfx];
    [vm_compute; reflexivity | vm_compute; reflexivity |].
  exact Hfx.
Defined.
